(** * MELD + Ollama: the response normalisation pipeline of [meld_ollama.py]

    A shallow embedding of [MELDProcessor] and of the pydantic schema it
    validates against, followed by the properties of the pipeline.

    Conventions of the embedding.
    - A Python float is the rational it denotes, or one of the three
      non-finite values; arithmetic on finite floats is exact.
    - The values [json.loads] produces are the Python values of the
      embedding: a dict is a [gmap string json].
    - A reply text is represented by what a JSON parser makes of it
      ([text]); the parsers themselves are library code. The content of a
      reply is a string, as the chat API of Ollama has it.
    - Methods of [MELDProcessor] that mutate [self] are computations in
      the state-and-exception monad [M]; a raise keeps the mutations made
      before it, as in Python.
    - The clock, the connectivity probe and the HTTP round trip are inputs
      of a call ([world]); console output is not modelled. *)

From Stdlib Require Import QArith Ascii.
From stdpp Require Import gmap strings list fin_maps.

Set Default Proof Using "Type".
#[local] Set Warnings "-register-all".
#[local] Open Scope string_scope.

(** ** Python values *)

Inductive pyfloat :=
| Finite (q : Q)
| PosInf
| NegInf
| NaN.

Inductive json :=
| JNull
| JBool (b : bool)
| JNum (x : pyfloat)
| JStr (s : string)
| JArr (l : list json)
| JObj (m : gmap string json).

(** [a < b] on floats; every comparison with [NaN] is false. *)
Definition flt (a b : pyfloat) : bool :=
  match a, b with
  | NaN, _ | _, NaN => false
  | _, NegInf => false
  | NegInf, _ => true
  | PosInf, _ => false
  | Finite _, PosInf => true
  | Finite p, Finite q => negb (Qle_bool q p)
  end.

(** ** Exceptions *)

Inductive exn :=
| ValidationError (loc : string)   (* pydantic: the offending field *)
| JSONDecodeError
| AttributeError
| TypeError
| TransportError (msg : string).   (* anything the HTTP round trip raises *)

(** [str(e)]. The text pydantic prints for a validation error is
    abbreviated to the field it complains about. *)
Definition str_exn (e : exn) : string :=
  match e with
  | ValidationError loc => "validation error for " ++ loc
  | JSONDecodeError => "Expecting value"
  | AttributeError => "object has no attribute 'get'"
  | TypeError => "'>' not supported between these instances"
  | TransportError msg => msg
  end.

Inductive result (A : Type) :=
| Ok (a : A)
| Raise (e : exn).
Arguments Ok {A} a.
Arguments Raise {A} e.

Definition rbind {A B} (c : result A) (k : A → result B) : result B :=
  match c with
  | Ok a => k a
  | Raise e => Raise e
  end.

Declare Scope res_scope.
Delimit Scope res_scope with res.
Notation "x <- c ;; k" := (rbind c (fun x => k))
  (at level 100, c at next level, right associativity) : res_scope.

Definition is_ok {A} (r : result A) : bool :=
  match r with Ok _ => true | Raise _ => false end.

(** ** Python primitives used by the processor *)

(** [d.get(k, default)] on a dict. *)
Definition dict_get (m : gmap string json) (k : string) (default : json)
  : json :=
  match m !! k with
  | Some v => v
  | None => default
  end.

(** [d.get(k, default)]: only a dict has [get]. *)
Definition py_get (d : json) (k : string) (default : json) : result json :=
  match d with
  | JObj m => Ok (dict_get m k default)
  | _ => Raise AttributeError
  end.

(** [x in names] for a list of string literals: only a string can be
    equal to one of them. *)
Definition py_in (x : json) (names : list string) : bool :=
  match x with
  | JStr s => bool_decide (s ∈ names)
  | _ => false
  end.

(** The number a value is compared as; [True] and [False] are the
    integers 1 and 0. *)
Definition as_number (x : json) : option pyfloat :=
  match x with
  | JNum f => Some f
  | JBool b => Some (Finite (if b then 1 else 0))
  | _ => None
  end.

(** [a < b]. It is only used with a float literal on one side, where
    every value that is not a number raises [TypeError]. *)
Definition py_lt (a b : json) : result bool :=
  match as_number a, as_number b with
  | Some x, Some y => Ok (flt x y)
  | _, _ => Raise TypeError
  end.

(** [max(a, b)]: [b] replaces [a] only when [b > a]. *)
Definition py_max (a b : json) : result json :=
  (gt <- py_lt a b ;; Ok (if gt then b else a))%res.

(** [min(a, b)]: [b] replaces [a] only when [b < a]. *)
Definition py_min (a b : json) : result json :=
  (lt <- py_lt b a ;; Ok (if lt then b else a))%res.

Definition JFloat (q : Q) : json := JNum (Finite q).

(** ** The MELD schema *)

Record MELDAction := {
  type : string;
  target : option string;
  value : option string;
  duration : option pyfloat;
  priority : option string
}.

Record MELDBehavior := {
  name : string;
  goal : option string;
  actions : list MELDAction
}.

Record EmotionalState := {
  primary : string;
  secondary : option string;
  intensity : Q;
  valence : Q;
  arousal : Q;
  stability : option Q
}.

Record MELDMessage := {
  intent : string;
  persona : string;
  emotional_state : EmotionalState;
  emoji : option string;
  response : string;
  behavior : MELDBehavior;
  confidence : Q;
  metadata : option (gmap string json)
}.

Definition action_types : list string :=
  ["cognitive_shift"; "state"; "visual"; "sequence";
   "experience_adaptation"; "processing_style"; "focus_adjustment"].

Definition behavior_names : list string :=
  ["guide"; "analyze"; "explore"; "synthesize"; "challenge";
   "acknowledge"; "adapt"; "focus"; "diverge"; "soothe"].

Definition personas : list string :=
  ["Strategist"; "Architect"; "Builder"; "Explorer"; "Sage"].

(** *** Field validators

    What pydantic does with one field, given the value supplied for it.
    A JSON number is accepted where a float is declared, a string where a
    [str] is, [None] where the field is [Optional]. The further coercions
    of pydantic's lax mode (a numeric string or a boolean for a float) are
    not modelled: such a value is rejected here. *)

Definition str_field (loc : string) (v : json) : result string :=
  match v with
  | JStr s => Ok s
  | _ => Raise (ValidationError loc)
  end.

Definition literal_field (loc : string) (allowed : list string) (v : json)
  : result string :=
  match v with
  | JStr s => if bool_decide (s ∈ allowed) then Ok s
              else Raise (ValidationError loc)
  | _ => Raise (ValidationError loc)
  end.

(** [float = Field(..., ge=lo, le=hi)] *)
Definition bounded_field (loc : string) (lo hi : Q) (v : json) : result Q :=
  match v with
  | JNum (Finite q) =>
      if Qle_bool lo q && Qle_bool q hi then Ok q
      else Raise (ValidationError loc)
  | _ => Raise (ValidationError loc)
  end.

Definition float_field (loc : string) (v : json) : result pyfloat :=
  match v with
  | JNum x => Ok x
  | _ => Raise (ValidationError loc)
  end.

Definition dict_field (loc : string) (v : json)
  : result (gmap string json) :=
  match v with
  | JObj m => Ok m
  | _ => Raise (ValidationError loc)
  end.

(** [Optional[T] = None] *)
Definition optional {A} (f : json → result A) (v : json)
  : result (option A) :=
  match v with
  | JNull => Ok None
  | _ => (a <- f v ;; Ok (Some a))%res
  end.

(** *** Constructors: [Model(field=value, ...)] *)

Definition MELDAction_init (type target value duration priority : json)
  : result MELDAction :=
  (ty <- literal_field "type" action_types type ;;
   tg <- optional (str_field "target") target ;;
   vl <- optional (str_field "value") value ;;
   du <- optional (float_field "duration") duration ;;
   pr <- optional (str_field "priority") priority ;;
   Ok {| type := ty; target := tg; value := vl;
         duration := du; priority := pr |})%res.

Definition MELDBehavior_init (name goal : json) (actions : list MELDAction)
  : result MELDBehavior :=
  (nm <- literal_field "name" behavior_names name ;;
   gl <- optional (str_field "goal") goal ;;
   Ok {| name := nm; goal := gl; actions := actions |})%res.

Definition EmotionalState_init
  (primary secondary intensity valence arousal stability : json)
  : result EmotionalState :=
  (pr <- str_field "primary" primary ;;
   se <- optional (str_field "secondary") secondary ;;
   it <- bounded_field "intensity" 0 1 intensity ;;
   va <- bounded_field "valence" (-1) 1 valence ;;
   ar <- bounded_field "arousal" 0 1 arousal ;;
   st <- optional (bounded_field "stability" 0 1) stability ;;
   Ok {| primary := pr; secondary := se; intensity := it;
         valence := va; arousal := ar; stability := st |})%res.

Definition MELDMessage_init (intent persona : json)
  (emotional_state : EmotionalState) (emoji response : json)
  (behavior : MELDBehavior) (confidence metadata : json)
  : result MELDMessage :=
  (it <- str_field "intent" intent ;;
   pe <- literal_field "persona" personas persona ;;
   em <- optional (str_field "emoji") emoji ;;
   re <- str_field "response" response ;;
   co <- bounded_field "confidence" 0 1 confidence ;;
   me <- optional (dict_field "metadata") metadata ;;
   Ok {| intent := it; persona := pe; emotional_state := emotional_state;
         emoji := em; response := re; behavior := behavior;
         confidence := co; metadata := me |})%res.

(** *** JSON mode: [Model.model_validate_json]

    A model is read from a JSON object: a missing required key is an
    error, a missing optional key is [None], keys the schema does not
    declare are ignored. *)

Definition required (m : gmap string json) (k : string) : result json :=
  match m !! k with
  | Some v => Ok v
  | None => Raise (ValidationError k)
  end.

Definition or_none (m : gmap string json) (k : string) : json :=
  match m !! k with
  | Some v => v
  | None => JNull
  end.

Fixpoint rmap {A B} (f : A → result B) (l : list A) : result (list B) :=
  match l with
  | [] => Ok []
  | a :: l' => (b <- f a ;; bs <- rmap f l' ;; Ok (b :: bs))%res
  end.

Definition MELDAction_validate (v : json) : result MELDAction :=
  match v with
  | JObj m =>
      (ty <- required m "type" ;;
       MELDAction_init ty (or_none m "target") (or_none m "value")
         (or_none m "duration") (or_none m "priority"))%res
  | _ => Raise (ValidationError "actions")
  end.

Definition MELDBehavior_validate (v : json) : result MELDBehavior :=
  match v with
  | JObj m =>
      (nm <- required m "name" ;;
       acts <- required m "actions" ;;
       acts <- match acts with
               | JArr l => rmap MELDAction_validate l
               | _ => Raise (ValidationError "actions")
               end ;;
       MELDBehavior_init nm (or_none m "goal") acts)%res
  | _ => Raise (ValidationError "behavior")
  end.

Definition EmotionalState_validate (v : json) : result EmotionalState :=
  match v with
  | JObj m =>
      (pr <- required m "primary" ;;
       it <- required m "intensity" ;;
       va <- required m "valence" ;;
       ar <- required m "arousal" ;;
       EmotionalState_init pr (or_none m "secondary") it va ar
         (or_none m "stability"))%res
  | _ => Raise (ValidationError "emotional_state")
  end.

Definition MELDMessage_validate (v : json) : result MELDMessage :=
  match v with
  | JObj m =>
      (it <- required m "intent" ;;
       pe <- required m "persona" ;;
       es <- required m "emotional_state" ;;
       es <- EmotionalState_validate es ;;
       re <- required m "response" ;;
       be <- required m "behavior" ;;
       be <- MELDBehavior_validate be ;;
       co <- required m "confidence" ;;
       MELDMessage_init it pe es (or_none m "emoji") re be co
         (or_none m "metadata"))%res
  | _ => Raise (ValidationError "MELDMessage")
  end.

(** A reply text, as the JSON parsers see it. *)
Inductive text :=
| Malformed
| WellFormed (v : json).

Definition json_loads (t : text) : result json :=
  match t with
  | Malformed => Raise JSONDecodeError
  | WellFormed v => Ok v
  end.

Definition model_validate_json (t : text) : result MELDMessage :=
  match t with
  | Malformed => Raise (ValidationError "json_invalid")
  | WellFormed v => MELDMessage_validate v
  end.

(** ** The processor state *)

(** [self.performance_stats] *)
Record stats := {
  successful_parses : nat;
  fallbacks_used : nat;
  total_requests : nat;
  avg_confidence : Q
}.

(** An entry of [self.interaction_history]; the keys of the dict carry
    the prefix [i_]. *)
Record interaction := {
  i_timestamp : string;
  i_user_input : string;
  i_persona : string;
  i_behavior : string;
  i_confidence : Q;
  i_processing_time : Q;
  i_success : bool
}.

Record MELDProcessor := {
  interaction_history : list interaction;
  performance_stats : stats;
  last_processing_time : Q;
  last_user_query : string
}.

(** [MELDProcessor.__init__] *)
Definition __init__ : MELDProcessor :=
  {| interaction_history := [];
     performance_stats :=
       {| successful_parses := 0; fallbacks_used := 0;
          total_requests := 0; avg_confidence := 0 |};
     last_processing_time := 0;
     last_user_query := "" |}.

(** What the outside world answers during one call of [process_query]. *)
Record world := {
  reachable : bool;       (* [_check_ollama_connection()] *)
  reply : result text;    (* steps 3 and 4: the content, or what was raised *)
  now : string;           (* [datetime.now().isoformat()] *)
  elapsed : Q             (* [time.time() - start_time] *)
}.

(** ** State and exceptions *)

Definition M (A : Type) : Type := MELDProcessor → result A * MELDProcessor.

Definition ret {A} (a : A) : M A := fun s => (Ok a, s).

Definition bind {A B} (c : M A) (k : A → M B) : M B :=
  fun s =>
    match c s with
    | (Ok a, s') => k a s'
    | (Raise e, s') => (Raise e, s')
    end.

Definition lift {A} (r : result A) : M A := fun s => (r, s).

(** [try: c except Exception as e: h e] and the bare [except:] *)
Definition try_except {A} (c : M A) (h : exn → M A) : M A :=
  fun s =>
    match c s with
    | (Ok a, s') => (Ok a, s')
    | (Raise e, s') => h e s'
    end.

(** [try: c except ValidationError as e: h e] *)
Definition try_except_ValidationError {A} (c : M A) (h : exn → M A) : M A :=
  fun s =>
    match c s with
    | (Raise (ValidationError loc), s') => h (ValidationError loc) s'
    | r => r
    end.

Definition map_stats (f : stats → stats) (s : MELDProcessor)
  : MELDProcessor :=
  {| interaction_history := interaction_history s;
     performance_stats := f (performance_stats s);
     last_processing_time := last_processing_time s;
     last_user_query := last_user_query s |}.

(** [self.performance_stats[...] = ...] *)
Definition update_stats (f : stats → stats) : M unit :=
  fun s => (Ok tt, map_stats f s).

Declare Scope m_scope.
Delimit Scope m_scope with M.
Notation "x <- c ;; k" := (bind c (fun x => k))
  (at level 100, c at next level, right associativity) : m_scope.
Notation "c ;; k" := (bind c (fun _ => k))
  (at level 100, right associativity) : m_scope.

Definition incr_total_requests (p : stats) : stats :=
  {| successful_parses := successful_parses p;
     fallbacks_used := fallbacks_used p;
     total_requests := S (total_requests p);
     avg_confidence := avg_confidence p |}.

Definition incr_successful_parses (p : stats) : stats :=
  {| successful_parses := S (successful_parses p);
     fallbacks_used := fallbacks_used p;
     total_requests := total_requests p;
     avg_confidence := avg_confidence p |}.

Definition incr_fallbacks_used (p : stats) : stats :=
  {| successful_parses := successful_parses p;
     fallbacks_used := S (fallbacks_used p);
     total_requests := total_requests p;
     avg_confidence := avg_confidence p |}.

Definition set_avg_confidence (a : Q) (p : stats) : stats :=
  {| successful_parses := successful_parses p;
     fallbacks_used := fallbacks_used p;
     total_requests := total_requests p;
     avg_confidence := a |}.

(** ** Strings *)

(** [c.lower()] on one character: the 26 capital letters move. Strings
    are sequences of bytes here, and a byte outside ASCII stays. *)
Definition lower_ascii (c : ascii) : ascii :=
  let n := nat_of_ascii c in
  if (65 <=? n)%nat && (n <=? 90)%nat then ascii_of_nat (n + 32) else c.

(** [s.lower()] *)
Fixpoint lower (s : string) : string :=
  match s with
  | EmptyString => EmptyString
  | String c s' => String (lower_ascii c) (lower s')
  end.

(** [word in s]: [word] occurs in [s] as a substring. *)
Fixpoint py_contains (s word : string) : bool :=
  String.prefix word s ||
  match s with
  | EmptyString => false
  | String _ s' => py_contains s' word
  end.

(** [any(word in s for word in words)] *)
Definition any_in (words : list string) (s : string) : bool :=
  existsb (py_contains s) words.

(** ** The methods of [MELDProcessor] *)

(** [data.get(k1, {}).get(k2, default)] *)
Definition py_get2 (data : json) (k1 k2 : string) (default : json)
  : result json :=
  (d <- py_get data k1 (JObj ∅) ;; py_get d k2 default)%res.

(** [min(max(x, lo), hi)] *)
Definition clamp (x : json) (lo hi : Q) : result json :=
  (m <- py_max x (JFloat lo) ;; py_min m (JFloat hi))%res.

Definition partial_metadata : gmap string json :=
  <["fallback_type" := JStr "partial_extraction"]>
    (<["original_data_quality" := JStr "partial"]> ∅).

(** The expression [MELDMessage(...)] that [_create_partial_meld]
    returns, its arguments evaluated in the order they are written. *)
Definition partial_message (data : json) (user_input : string)
  : result MELDMessage :=
  (intent <- py_get data "intent" (JStr "general_assistance") ;;
   p <- py_get data "persona" JNull ;;
   persona <- (if py_in p personas
               then py_get data "persona" (JStr "Sage")
               else Ok (JStr "Sage")) ;;
   primary <- py_get2 data "emotional_state" "primary" (JStr "helpful") ;;
   i <- py_get2 data "emotional_state" "intensity" (JFloat 0.7) ;;
   intensity <- clamp i 0 1 ;;
   v <- py_get2 data "emotional_state" "valence" (JFloat 0.5) ;;
   valence <- clamp v (-1) 1 ;;
   a <- py_get2 data "emotional_state" "arousal" (JFloat 0.5) ;;
   arousal <- clamp a 0 1 ;;
   emotional_state <-
     EmotionalState_init primary JNull intensity valence arousal JNull ;;
   emoji <- py_get data "emoji" (JStr "🤖") ;;
   response <- py_get data "response"
     (JStr ("I understand you're asking about: " ++ user_input
            ++ ". Let me help you with that.")) ;;
   n <- py_get2 data "behavior" "name" JNull ;;
   name <- (if negb (py_in n behavior_names)
            then Ok (JStr "acknowledge")
            else py_get2 data "behavior" "name" (JStr "acknowledge")) ;;
   goal <- py_get2 data "behavior" "goal"
     (JStr "Provide helpful assistance") ;;
   action <- MELDAction_init (JStr "state") (JStr "assistance")
     (JStr "active") JNull JNull ;;
   behavior <- MELDBehavior_init name goal [action] ;;
   c <- py_get data "confidence" (JFloat 0.6) ;;
   confidence <- clamp c 0 1 ;;
   MELDMessage_init intent persona emotional_state emoji response behavior
     confidence (JObj partial_metadata))%res.

Definition _create_partial_meld (data : json) (user_input : string)
  : M MELDMessage :=
  (update_stats incr_fallbacks_used ;;
   lift (partial_message data user_input))%M.

(** The four assignments and the [if]/[elif] chain of
    [_create_intelligent_fallback]:
    [(intent, persona, behavior_name, emotion)]. *)
Definition classify (user_input : string)
  : string * string * string * string :=
  if any_in ["analyze"; "compare"; "evaluate"] (lower user_input)
  then ("analysis_request", "Strategist", "analyze", "analytical")
  else if any_in ["explore"; "discover"; "learn"] (lower user_input)
  then ("exploration_request", "Explorer", "explore", "curious")
  else if any_in ["build"; "create"; "make"] (lower user_input)
  then ("creation_request", "Builder", "guide", "practical")
  else ("general_assistance", "Sage", "acknowledge", "helpful").

Definition fallback_metadata (error_msg : string) : gmap string json :=
  <["fallback_type" := JStr "intelligent_analysis"]>
    (<["error" := JStr error_msg]>
       (<["processing_mode" := JStr "safe_fallback"]> ∅)).

Definition fallback_message (user_input error_msg : string)
  : result MELDMessage :=
  let '(intent, persona, behavior_name, emotion) := classify user_input in
  (emotional_state <-
     EmotionalState_init (JStr emotion) JNull (JFloat 0.7) (JFloat 0.5)
       (JFloat 0.4) (JFloat 0.8) ;;
   a1 <- MELDAction_init (JStr "state") (JStr "safe_mode") (JStr "active")
     JNull JNull ;;
   a2 <- MELDAction_init (JStr "cognitive_shift")
     (JStr "fallback_processing") (JStr "enabled") JNull JNull ;;
   behavior <- MELDBehavior_init (JStr behavior_name)
     (JStr "Provide reliable assistance despite processing limitations")
     [a1; a2] ;;
   MELDMessage_init (JStr intent) (JStr persona) emotional_state
     (JStr "🛡️")
     (JStr ("I encountered a processing issue, but I can still help you with '"
            ++ user_input
            ++ "'. While my cognitive control system had difficulties, I'm functioning in safe mode and ready to assist."))
     behavior (JFloat 0.6) (JObj (fallback_metadata error_msg)))%res.

Definition _create_intelligent_fallback (user_input error_msg : string)
  : M MELDMessage :=
  (update_stats incr_fallbacks_used ;;
   lift (fallback_message user_input error_msg))%M.

Definition connection_metadata : gmap string json :=
  <["error_type" := JStr "connection_failure"]>
    (<["suggested_action" := JStr "restart_ollama"]> ∅).

Definition _create_connection_fallback (user_input : string)
  : result MELDMessage :=
  (emotional_state <-
     EmotionalState_init (JStr "concerned") (JStr "helpful") (JFloat 0.6)
       (JFloat (-0.2)) (JFloat 0.3) JNull ;;
   a1 <- MELDAction_init (JStr "state") (JStr "connection") (JStr "error")
     JNull JNull ;;
   a2 <- MELDAction_init (JStr "visual") (JStr "status") (JStr "warning")
     JNull JNull ;;
   behavior <- MELDBehavior_init (JStr "acknowledge")
     (JStr "Inform user of connection issue and provide guidance")
     [a1; a2] ;;
   MELDMessage_init (JStr "connection_error") (JStr "Sage") emotional_state
     (JStr "🔌")
     (JStr ("I'm unable to connect to the local AI model (Ollama) to process your request about '"
            ++ user_input
            ++ "'. Please ensure Ollama is running with 'ollama serve' and try again."))
     behavior (JFloat 0.95) (JObj connection_metadata))%res.

(** [sum(confidences)] *)
Definition py_sum (l : list Q) : Q := fold_left Qplus l 0%Q.

Definition _record_interaction (user_input : string)
  (meld_response : MELDMessage) (timestamp : string) (processing_time : Q)
  (success : bool) : M unit :=
  fun s =>
    let interaction :=
      {| i_timestamp := timestamp;
         i_user_input := user_input;
         i_persona := persona meld_response;
         i_behavior := name (behavior meld_response);
         i_confidence := confidence meld_response;
         i_processing_time := processing_time;
         i_success := success |} in
    let history := (interaction_history s ++ [interaction])%list in
    let confidences := map i_confidence history in
    (Ok tt,
     {| interaction_history := history;
        performance_stats :=
          set_avg_confidence
            (py_sum confidences / inject_Z (Z.of_nat (length confidences)))%Q
            (performance_stats s);
        last_processing_time := processing_time;
        last_user_query := user_input |}).

Definition _parse_meld_response (meld_json : text) (user_input : string)
  : M MELDMessage :=
  try_except_ValidationError
    (meld_message <- lift (model_validate_json meld_json) ;;
     update_stats incr_successful_parses ;;
     ret meld_message)%M
    (fun e =>
       try_except
         (partial_data <- lift (json_loads meld_json) ;;
          _create_partial_meld partial_data user_input)%M
         (fun _ =>
            _create_intelligent_fallback user_input
              ("JSON parsing failed: " ++ str_exn e))).

(** [process_query]. The messages of step 2 only reach the transport,
    whose answer is [reply w]. *)
Definition process_query (user_input : string) (w : world)
  : M MELDMessage :=
  (update_stats incr_total_requests ;;
   if negb (reachable w)
   then lift (_create_connection_fallback user_input)
   else
     try_except
       (meld_json <- lift (reply w) ;;
        meld_message <- _parse_meld_response meld_json user_input ;;
        _record_interaction user_input meld_message (now w) (elapsed w)
          true ;;
        ret meld_message)
       (fun e =>
          fallback <- _create_intelligent_fallback user_input (str_exn e) ;;
          _record_interaction user_input fallback (now w) (elapsed w)
            false ;;
          ret fallback))%M.

(** * Vocabulary of the properties *)

(** ** What a record of the schema satisfies *)

Definition in_range (lo hi q : Q) : Prop := (lo <= q)%Q ∧ (q <= hi)%Q.

Definition conforming_emotion (es : EmotionalState) : Prop :=
  in_range 0 1 (intensity es) ∧
  in_range (-1) 1 (valence es) ∧
  in_range 0 1 (arousal es) ∧
  match stability es with
  | Some st => in_range 0 1 st
  | None => True
  end.

Definition conforming_behavior (b : MELDBehavior) : Prop :=
  name b ∈ behavior_names ∧
  Forall (fun a => type a ∈ action_types) (actions b).

Definition conforming (m : MELDMessage) : Prop :=
  persona m ∈ personas ∧
  conforming_emotion (emotional_state m) ∧
  conforming_behavior (behavior m) ∧
  in_range 0 1 (confidence m).

(** A result that is a value or a [ValidationError]. *)
Definition only_validation {A} (r : result A) : Prop :=
  match r with
  | Ok _ | Raise (ValidationError _) => True
  | Raise _ => False
  end.

(** The one action [_create_partial_meld] gives every record it builds. *)
Definition assistance_action : MELDAction :=
  {| type := "state"; target := Some "assistance"; value := Some "active";
     duration := None; priority := None |}.

(** The two actions of [_create_intelligent_fallback]. *)
Definition safe_mode_actions : list MELDAction :=
  [ {| type := "state"; target := Some "safe_mode"; value := Some "active";
       duration := None; priority := None |};
    {| type := "cognitive_shift"; target := Some "fallback_processing";
       value := Some "enabled"; duration := None; priority := None |} ].

(** ** The outcome of a query

    The states of the controller a query ends in, before it is recorded. *)

Inductive tier :=
| Validated
| PartiallyRecovered
| Synthesized
| ConnectionFallback.

Definition tier_of (user_input : string) (w : world) : tier :=
  if negb (reachable w) then ConnectionFallback
  else
    match reply w with
    | Raise _ => Synthesized
    | Ok t =>
        if is_ok (model_validate_json t) then Validated
        else
          match t with
          | WellFormed data =>
              if is_ok (partial_message data user_input)
              then PartiallyRecovered else Synthesized
          | Malformed => Synthesized
          end
    end.

(** Partial reconstruction was attempted and raised. *)
Definition partial_failed (user_input : string) (w : world) : bool :=
  reachable w &&
  match reply w with
  | Ok (WellFormed data) =>
      negb (is_ok (model_validate_json (WellFormed data))) &&
      negb (is_ok (partial_message data user_input))
  | _ => false
  end.

(** The state after [_record_interaction]. *)
Definition recorded (user_input : string) (m : MELDMessage) (w : world)
  (success : bool) (s : MELDProcessor) : MELDProcessor :=
  snd (_record_interaction user_input m (now w) (elapsed w) success s).

(** The entry [_record_interaction] appends. *)
Definition entry_of (user_input : string) (m : MELDMessage) (w : world)
  (success : bool) : interaction :=
  {| i_timestamp := now w;
     i_user_input := user_input;
     i_persona := persona m;
     i_behavior := name (behavior m);
     i_confidence := confidence m;
     i_processing_time := elapsed w;
     i_success := success |}.

(** How the record a query is answered with was built. *)
Definition produced (user_input : string) (w : world) (m : MELDMessage)
  : Prop :=
  match tier_of user_input w with
  | Validated => ∃ t, reply w = Ok t ∧ model_validate_json t = Ok m
  | PartiallyRecovered =>
      ∃ data, reply w = Ok (WellFormed data) ∧
              partial_message data user_input = Ok m
  | Synthesized => ∃ error_msg, fallback_message user_input error_msg = Ok m
  | ConnectionFallback => _create_connection_fallback user_input = Ok m
  end.

(** By how much a query raises [fallbacks_used]. *)
Definition fallback_bumps (user_input : string) (w : world) : nat :=
  match tier_of user_input w with
  | PartiallyRecovered | Synthesized => 1
  | Validated | ConnectionFallback => 0
  end + (if partial_failed user_input w then 1 else 0).

(** [sum(confidences) / len(confidences)] over the history. *)
Definition history_average (h : list interaction) : Q :=
  (py_sum (map i_confidence h) / inject_Z (Z.of_nat (length (map i_confidence h))))%Q.

(** The [except Exception as e] clause of [process_query], run from the
    state [s]. *)
Definition except_clause (user_input : string) (w : world) (e : exn)
  (s : MELDProcessor) : result MELDMessage * MELDProcessor :=
  match fallback_message user_input (str_exn e) with
  | Ok m =>
      (Ok m, recorded user_input m w false (map_stats incr_fallbacks_used s))
  | Raise e' => (Raise e', map_stats incr_fallbacks_used s)
  end.

(** ** Sample inputs *)

(** A JSON object, from its members. *)
Definition obj (members : list (string * json)) : json :=
  JObj (list_to_map members).

(** The probe fails. *)
Definition offline : world :=
  {| reachable := false;
     reply := Raise (TransportError "connection refused");
     now := "2025-01-01T00:00:00";
     elapsed := 0 |}.

(** The probe succeeds and the model answers with the text [t]. *)
Definition answering (t : text) : world :=
  {| reachable := true;
     reply := Ok t;
     now := "2025-01-01T00:00:00";
     elapsed := 1 |}.

(** The probe succeeds and the request times out. *)
Definition timing_out : world :=
  {| reachable := true;
     reply := Raise (TransportError "Read timed out.");
     now := "2025-01-01T00:00:00";
     elapsed := 45 |}.

(** A reply that names a behaviour and brings an action of its own. *)
Definition reply_with_actions : json :=
  obj [("persona", JStr "Explorer");
       ("behavior",
        obj [("name", JStr "explore");
             ("actions", JArr [obj [("type", JStr "visual")]])])].

(** A reply whose emotional state has all six fields, and nothing else. *)
Definition reply_with_emotion : json :=
  obj [("emotional_state",
        obj [("primary", JStr "curious");
             ("secondary", JStr "calm");
             ("intensity", JFloat 0.9);
             ("valence", JFloat 0.2);
             ("arousal", JFloat 1.5);
             ("stability", JFloat 0.7)])].

(** ** The keyword rules, as the specification words them *)





(** ** A record read off a JSON value, member by member *)








(** ** The values partial reconstruction can rebuild a record from *)




(** A number that is not [NaN]: clamping brings it into the range. *)
Definition is_clampable (v : json) : bool :=
  match v with
  | JNum NaN => false
  | JNum _ => true
  | _ => false
  end.



(** ** Sessions *)

(** The processor after a sequence of queries, each with the world it
    met. *)
Fixpoint run (queries : list (string * world)) (s : MELDProcessor)
  : MELDProcessor :=
  match queries with
  | [] => s
  | (user_input, w) :: rest => run rest (snd (process_query user_input w s))
  end.



(** The confidences recorded so far. *)
Definition confidences (s : MELDProcessor) : list Q :=
  map i_confidence (interaction_history s).

(** A reply whose [emotional_state] is a string. *)
Definition reply_with_flat_emotion : json :=
  obj [("emotional_state", JStr "curious")].


(** * Further methods of [MELDProcessor] *)

(** ** [_prepare_messages] *)

(** [l[-n:]] for a positive [n]: the last [n] elements, or all of them. *)
Definition last_n {A} (n : nat) (l : list A) : list A :=
  drop (length l - n) l.

(** [sep.join(l)] *)
Fixpoint join (sep : string) (l : list string) : string :=
  match l with
  | [] => ""
  | [x] => x
  | x :: rest => x ++ sep ++ join sep rest
  end.

Definition newline : string := String (ascii_of_nat 10) "".

(** [[h.get("persona") for h in self.interaction_history[-3:]]] *)
Definition recent_personas (s : MELDProcessor) : list string :=
  map i_persona (last_n 3 (interaction_history s)).

Definition experience_context (s : MELDProcessor) : string :=
  if (0 <? length (interaction_history s))%nat
  then newline ++ "Recent interaction context: You've been acting as "
       ++ join ", " (recent_personas s) ++ " in recent exchanges."
  else "".

(** The messages, as pairs of a role and a content. The system prompt
    [MELD_SYSTEM_PROMPT] is an argument. *)
Definition _prepare_messages (MELD_SYSTEM_PROMPT user_input context : string)
  (s : MELDProcessor) : list (string * string) :=
  [ ("system", MELD_SYSTEM_PROMPT ++ experience_context s);
    ("user",
     "Context: " ++ context ++ newline ++ newline ++ "User Query: "
     ++ user_input) ].

(** ** [show_performance_stats] *)

(** [((total_requests - fallbacks_used) / max(total_requests, 1)) * 100] *)
Definition success_rate (p : stats) : Q :=
  (inject_Z (Z.of_nat (total_requests p) - Z.of_nat (fallbacks_used p))
   / inject_Z (Z.of_nat (Nat.max (total_requests p) 1)) * 100)%Q.

(** ** [display_meld_response] and the explanations *)

(** [a > b] on floats that are numbers. *)
Definition Qgt_bool (a b : Q) : bool := negb (Qle_bool a b).

(** The truth value of a Python value. *)
Definition py_truthy (v : json) : bool :=
  match v with
  | JNull => false
  | JBool b => b
  | JNum (Finite q) => negb (Qeq_bool q 0)
  | JNum _ => true
  | JStr s => negb (String.eqb s "")
  | JArr l => match l with [] => false | _ => true end
  | JObj m => negb (bool_decide (m = ∅))
  end.

(** [meld.metadata and meld.metadata.get("fallback_type")], as a truth
    value. *)
Definition shows_fallback (m : MELDMessage) : bool :=
  match metadata m with
  | Some md =>
      negb (bool_decide (md = ∅)) && py_truthy (dict_get md "fallback_type" JNull)
  | None => false
  end.

Definition border_style (m : MELDMessage) (processing_time : Q) : string :=
  if shows_fallback m then "bright_red"
  else if Qgt_bool processing_time 10 then "red"
  else if Qgt_bool processing_time 5 then "yellow"
  else if Qgt_bool processing_time 2 then "cyan"
  else "green".

Definition intensity_color (m : MELDMessage) : string :=
  if Qgt_bool (intensity (emotional_state m)) 0.8 then "red"
  else if Qgt_bool (intensity (emotional_state m)) 0.5 then "yellow"
  else "green".

Definition mood_color (m : MELDMessage) : string :=
  if Qgt_bool (valence (emotional_state m)) 0.2 then "green"
  else if Qgt_bool (-0.2) (valence (emotional_state m)) then "red"
  else "yellow".

Definition conf_color (m : MELDMessage) : string :=
  if Qgt_bool (confidence m) 0.8 then "green"
  else if Qgt_bool (confidence m) 0.6 then "yellow"
  else "red".

(** [d.get(k, default)] on a dict of strings. *)
Definition str_get (d : gmap string string) (k default : string) : string :=
  match d !! k with
  | Some v => v
  | None => default
  end.

Definition action_icons : gmap string string :=
  list_to_map
    [ ("cognitive_shift", "🧠"); ("state", "⚡"); ("visual", "🎨");
      ("sequence", "🎬"); ("experience_adaptation", "📚");
      ("processing_style", "⚙️"); ("focus_adjustment", "🎯") ].

(** [action_icons.get(action.type, "•")] *)
Definition action_icon (a : MELDAction) : string :=
  str_get action_icons (type a) "•".

Definition intent_explanations : gmap string string :=
  list_to_map
    [ ("seek_clarity",
       "You're asking for clearer understanding or explanation");
      ("explore_concepts", "You want to discover and learn new ideas");
      ("solve_problem",
       "You need help finding a solution to a challenge");
      ("find_information", "You're looking for specific facts or data");
      ("get_guidance",
       "You want advice or direction on how to proceed");
      ("challenge_assumptions",
       "You're questioning existing ideas or beliefs");
      ("analysis_request", "You want something analyzed or evaluated");
      ("exploration_request",
       "You're interested in exploring possibilities");
      ("creation_request", "You want to build or create something");
      ("general_assistance", "You need general help or support") ].

Definition _explain_intent_detection (intent user_query : string) : string :=
  "🎯 Intent Detection: [italic]"
  ++ str_get intent_explanations intent
       "General assistance request detected"
  ++ "[/italic]".

Definition behavior_explanations : gmap string string :=
  list_to_map
    [ ("guide", "Step-by-step instruction and structured support");
      ("analyze", "Deep examination and systematic breakdown");
      ("explore", "Creative discovery and possibility generation");
      ("synthesize", "Combining ideas and finding connections");
      ("challenge", "Critical thinking and assumption questioning");
      ("acknowledge", "Recognition and validation of your concerns");
      ("adapt", "Flexible adjustment to your specific needs");
      ("focus", "Concentrated attention on specific details");
      ("diverge", "Broad thinking and multiple perspectives");
      ("soothe", "Calming and supportive approach") ].

Definition _explain_behavior (behavior : string) : string :=
  str_get behavior_explanations behavior
    "General cognitive processing approach".

Definition action_explanations : gmap string string :=
  list_to_map
    [ ("cognitive_shift", "changing thinking style");
      ("state", "adjusting mental state");
      ("visual", "modifying visual presentation");
      ("sequence", "organizing information flow");
      ("experience_adaptation", "learning from past interactions");
      ("processing_style", "altering analysis method");
      ("focus_adjustment", "refining attention level") ].

Definition _explain_action (action_type : string) : string :=
  str_get action_explanations action_type "cognitive adjustment".

Definition _explain_confidence (confidence : Q) : string :=
  if Qgt_bool confidence 0.9 then "(Very High - Extremely certain)"
  else if Qgt_bool confidence 0.8 then "(High - Very confident)"
  else if Qgt_bool confidence 0.7 then "(Good - Reasonably confident)"
  else if Qgt_bool confidence 0.6 then "(Medium - Somewhat uncertain)"
  else if Qgt_bool confidence 0.5 then "(Low - Limited confidence)"
  else "(Very Low - High uncertainty)".

(** ** Vocabulary of the further properties *)

(** What the recorded copy of a conforming record satisfies. *)
Definition entry_conforming (e : interaction) : Prop :=
  in_range 0 1 (i_confidence e) ∧
  i_persona e ∈ personas ∧
  i_behavior e ∈ behavior_names.

(** The number of queries of a session that satisfy [P]. *)
Definition count_where (P : string * world → bool)
  (queries : list (string * world)) : nat :=
  length (filter (λ qw, P qw = true) queries).

Definition validated (query : string * world) : bool :=
  match tier_of query.1 query.2 with
  | Validated => true
  | _ => false
  end.

Definition probe_failed (query : string * world) : bool :=
  negb (reachable query.2).

Definition partial_raised (query : string * world) : bool :=
  partial_failed query.1 query.2.






(** The members [_create_partial_meld] reads: of the reply, of its
    emotional state, of its behaviour. *)
Definition read_members : list string :=
  ["intent"; "persona"; "emotional_state"; "emoji"; "response";
   "behavior"; "confidence"].

Definition read_emotion_members : list string :=
  ["primary"; "intensity"; "valence"; "arousal"].

Definition read_behavior_members : list string := ["name"; "goal"].


(** The response of [_create_connection_fallback]. *)
Definition connection_notice (user_input : string) : string :=
  "I'm unable to connect to the local AI model (Ollama) to process your request about '"
  ++ user_input
  ++ "'. Please ensure Ollama is running with 'ollama serve' and try again.".

(** What is stored for the display describes the last entry of the
    history; with no entry, it is what [__init__] stored. *)
Definition display_store_in_step (s : MELDProcessor) : Prop :=
  match last (interaction_history s) with
  | Some e =>
      last_user_query s = i_user_input e ∧
      last_processing_time s = i_processing_time e
  | None =>
      last_user_query s = last_user_query __init__ ∧
      last_processing_time s = last_processing_time __init__
  end.

(** * Properties *)

(** ** Inversion of the validators *)

Lemma rbind_Ok {A B} (c : result A) (k : A → result B) (b : B) :
  rbind c k = Ok b → ∃ a, c = Ok a ∧ k a = Ok b.
Proof. destruct c as [a|e]; simpl; [eauto | discriminate]. Qed.

Lemma str_field_Ok loc v s : str_field loc v = Ok s → v = JStr s.
Proof. destruct v; simpl; congruence. Qed.

Lemma literal_field_Ok loc allowed v s :
  literal_field loc allowed v = Ok s → v = JStr s ∧ s ∈ allowed.
Proof.
  destruct v as [| | |s'| |]; simpl; try discriminate.
  case_bool_decide; [|discriminate].
  intros [= ->]. auto.
Qed.

Lemma bounded_field_Ok loc lo hi v q :
  bounded_field loc lo hi v = Ok q → v = JFloat q ∧ in_range lo hi q.
Proof.
  destruct v as [| |[p| | |]| | |]; simpl; try discriminate.
  destruct (Qle_bool lo p) eqn:Hlo; simpl; [|discriminate].
  destruct (Qle_bool p hi) eqn:Hhi; [|discriminate].
  intros [= <-]. split; [reflexivity|].
  split; by apply Qle_bool_iff.
Qed.

Lemma optional_Ok {A} (f : json → result A) v (o : option A) :
  optional f v = Ok o →
  (v = JNull ∧ o = None) ∨ (v ≠ JNull ∧ ∃ a, f v = Ok a ∧ o = Some a).
Proof.
  destruct v; simpl;
    first [ intros [= <-]; by left
          | intros (a & Ha & [= <-])%rbind_Ok; right; by eauto ].
Qed.

Lemma MELDAction_init_Ok ty tg vl du pr a :
  MELDAction_init ty tg vl du pr = Ok a →
  ty = JStr (type a) ∧ type a ∈ action_types ∧
  optional (str_field "target") tg = Ok (target a) ∧
  optional (str_field "value") vl = Ok (value a) ∧
  optional (float_field "duration") du = Ok (duration a) ∧
  optional (str_field "priority") pr = Ok (priority a).
Proof.
  unfold MELDAction_init.
  intros (ty' & [-> Hty]%literal_field_Ok & H)%rbind_Ok.
  apply rbind_Ok in H as (tg' & Htg & H).
  apply rbind_Ok in H as (vl' & Hvl & H).
  apply rbind_Ok in H as (du' & Hdu & H).
  apply rbind_Ok in H as (pr' & Hpr & [= <-]).
  simpl. auto 10.
Qed.

Lemma MELDBehavior_init_Ok nm gl acts b :
  MELDBehavior_init nm gl acts = Ok b →
  nm = JStr (name b) ∧ name b ∈ behavior_names ∧
  optional (str_field "goal") gl = Ok (goal b) ∧ actions b = acts.
Proof.
  unfold MELDBehavior_init.
  intros (nm' & [-> Hnm]%literal_field_Ok & H)%rbind_Ok.
  apply rbind_Ok in H as (gl' & Hgl & [= <-]).
  simpl. auto.
Qed.

Lemma EmotionalState_init_Ok pr se it va ar st es :
  EmotionalState_init pr se it va ar st = Ok es →
  pr = JStr (primary es) ∧
  optional (str_field "secondary") se = Ok (secondary es) ∧
  (it = JFloat (intensity es) ∧ in_range 0 1 (intensity es)) ∧
  (va = JFloat (valence es) ∧ in_range (-1) 1 (valence es)) ∧
  (ar = JFloat (arousal es) ∧ in_range 0 1 (arousal es)) ∧
  optional (bounded_field "stability" 0 1) st = Ok (stability es).
Proof.
  unfold EmotionalState_init.
  intros (pr' & ->%str_field_Ok & H)%rbind_Ok.
  apply rbind_Ok in H as (se' & Hse & H).
  apply rbind_Ok in H as (it' & Hit%bounded_field_Ok & H).
  apply rbind_Ok in H as (va' & Hva%bounded_field_Ok & H).
  apply rbind_Ok in H as (ar' & Har%bounded_field_Ok & H).
  apply rbind_Ok in H as (st' & Hst & [= <-]).
  simpl. auto 10.
Qed.

Lemma MELDMessage_init_Ok it pe es em re be co me m :
  MELDMessage_init it pe es em re be co me = Ok m →
  it = JStr (intent m) ∧
  (pe = JStr (persona m) ∧ persona m ∈ personas) ∧
  emotional_state m = es ∧
  optional (str_field "emoji") em = Ok (emoji m) ∧
  re = JStr (response m) ∧
  behavior m = be ∧
  (co = JFloat (confidence m) ∧ in_range 0 1 (confidence m)) ∧
  optional (dict_field "metadata") me = Ok (metadata m).
Proof.
  unfold MELDMessage_init.
  intros (it' & ->%str_field_Ok & H)%rbind_Ok.
  apply rbind_Ok in H as (pe' & Hpe%literal_field_Ok & H).
  apply rbind_Ok in H as (em' & Hem & H).
  apply rbind_Ok in H as (re' & ->%str_field_Ok & H).
  apply rbind_Ok in H as (co' & Hco%bounded_field_Ok & H).
  apply rbind_Ok in H as (me' & Hme & [= <-]).
  simpl. auto 10.
Qed.

Lemma conforming_emotion_init pr se it va ar st es :
  EmotionalState_init pr se it va ar st = Ok es → conforming_emotion es.
Proof.
  intros (_ & _ & [_ Hit] & [_ Hva] & [_ Har] & Hst)%EmotionalState_init_Ok.
  unfold conforming_emotion. split_and!; try done.
  destruct (stability es) as [q|]; [|done].
  apply optional_Ok in Hst as [[_ [=]]|(_ & a & Ha & [= <-])].
  by apply bounded_field_Ok in Ha as [_ ?].
Qed.

Lemma conforming_init it pe es em re be co me m :
  conforming_emotion es → conforming_behavior be →
  MELDMessage_init it pe es em re be co me = Ok m → conforming m.
Proof.
  intros Hes Hbe (_ & [_ Hpe] & <- & _ & _ & <- & [_ Hco] & _)%MELDMessage_init_Ok.
  unfold conforming. by split_and!.
Qed.

Lemma rmap_Forall {A B} (f : A → result B) (P : B → Prop) l l' :
  (∀ a b, f a = Ok b → P b) → rmap f l = Ok l' → Forall P l'.
Proof.
  intros Hf. revert l'.
  induction l as [|a l IH]; simpl; intros l'.
  - intros [= <-]. constructor.
  - intros (b & Hb & H)%rbind_Ok.
    apply rbind_Ok in H as (bs & Hbs & [= <-]).
    constructor; eauto.
Qed.

Lemma MELDAction_validate_Ok v a :
  MELDAction_validate v = Ok a → type a ∈ action_types.
Proof.
  destruct v; simpl; try discriminate.
  intros (ty & _ & H)%rbind_Ok.
  by apply MELDAction_init_Ok in H as (_ & ? & _).
Qed.

Lemma conforming_behavior_validate v b :
  MELDBehavior_validate v = Ok b → conforming_behavior b.
Proof.
  destruct v; simpl; try discriminate.
  intros (nm & _ & H)%rbind_Ok.
  apply rbind_Ok in H as (acts & _ & H).
  apply rbind_Ok in H as (acts' & Hacts & H).
  apply MELDBehavior_init_Ok in H as (_ & Hnm & _ & <-).
  split; [done|].
  destruct acts; try discriminate.
  eapply rmap_Forall; [|done]. apply MELDAction_validate_Ok.
Qed.

Lemma conforming_emotion_validate v es :
  EmotionalState_validate v = Ok es → conforming_emotion es.
Proof.
  destruct v; simpl; try discriminate.
  intros (pr & _ & H)%rbind_Ok.
  apply rbind_Ok in H as (it & _ & H).
  apply rbind_Ok in H as (va & _ & H).
  apply rbind_Ok in H as (ar & _ & H).
  by eapply conforming_emotion_init.
Qed.

(** A record that passes the validator is a record of the schema. *)
Lemma conforming_validate v m :
  MELDMessage_validate v = Ok m → conforming m.
Proof.
  destruct v; simpl; try discriminate.
  intros (it & _ & H)%rbind_Ok.
  apply rbind_Ok in H as (pe & _ & H).
  apply rbind_Ok in H as (es0 & _ & H).
  apply rbind_Ok in H as (es & Hes%conforming_emotion_validate & H).
  apply rbind_Ok in H as (re & _ & H).
  apply rbind_Ok in H as (be0 & _ & H).
  apply rbind_Ok in H as (be & Hbe%conforming_behavior_validate & H).
  apply rbind_Ok in H as (co & _ & H).
  by eapply conforming_init.
Qed.

(** ** The validator raises nothing but [ValidationError] *)

Lemma only_validation_rbind {A B} (c : result A) (k : A → result B) :
  only_validation c → (∀ a, only_validation (k a)) →
  only_validation (rbind c k).
Proof. destruct c as [a|[]]; simpl; auto. Qed.

Lemma only_validation_optional {A} (f : json → result A) v :
  (∀ v, only_validation (f v)) → only_validation (optional f v).
Proof.
  intros Hf. destruct v; simpl; try done;
    (apply only_validation_rbind; [apply Hf|done]).
Qed.

Lemma only_validation_str_field loc v : only_validation (str_field loc v).
Proof. by destruct v. Qed.

Lemma only_validation_literal_field loc al v :
  only_validation (literal_field loc al v).
Proof. destruct v; simpl; try done. by case_bool_decide. Qed.

Lemma only_validation_bounded_field loc lo hi v :
  only_validation (bounded_field loc lo hi v).
Proof.
  destruct v as [| |[]| | |]; simpl; try done.
  by destruct (_ && _).
Qed.

Lemma only_validation_float_field loc v : only_validation (float_field loc v).
Proof. by destruct v. Qed.

Lemma only_validation_dict_field loc v : only_validation (dict_field loc v).
Proof. by destruct v. Qed.

Lemma only_validation_required m k : only_validation (required m k).
Proof. unfold required. by destruct (m !! k). Qed.

Create HintDb validation.
#[local] Hint Resolve only_validation_str_field only_validation_literal_field
  only_validation_bounded_field only_validation_float_field
  only_validation_dict_field only_validation_required
  only_validation_optional : validation.

Ltac only_validation_step :=
  first [ apply only_validation_rbind; [|intros ?]
        | progress eauto with validation
        | exact I ].

Lemma only_validation_MELDAction_init ty tg vl du pr :
  only_validation (MELDAction_init ty tg vl du pr).
Proof. unfold MELDAction_init. repeat only_validation_step. Qed.

Lemma only_validation_MELDBehavior_init nm gl acts :
  only_validation (MELDBehavior_init nm gl acts).
Proof. unfold MELDBehavior_init. repeat only_validation_step. Qed.

Lemma only_validation_EmotionalState_init pr se it va ar st :
  only_validation (EmotionalState_init pr se it va ar st).
Proof. unfold EmotionalState_init. repeat only_validation_step. Qed.

Lemma only_validation_MELDMessage_init it pe es em re be co me :
  only_validation (MELDMessage_init it pe es em re be co me).
Proof. unfold MELDMessage_init. repeat only_validation_step. Qed.

Lemma only_validation_MELDAction_validate v :
  only_validation (MELDAction_validate v).
Proof.
  destruct v; simpl; try done.
  apply only_validation_rbind; [apply only_validation_required|intros ?].
  apply only_validation_MELDAction_init.
Qed.

Lemma only_validation_rmap {A B} (f : A → result B) l :
  (∀ a, only_validation (f a)) → only_validation (rmap f l).
Proof.
  intros Hf. induction l as [|a l IH]; simpl; [done|].
  apply only_validation_rbind; [apply Hf|intros b].
  apply only_validation_rbind; [apply IH|done].
Qed.

Lemma only_validation_MELDBehavior_validate v :
  only_validation (MELDBehavior_validate v).
Proof.
  destruct v; simpl; try done.
  apply only_validation_rbind; [apply only_validation_required|intros nm].
  apply only_validation_rbind; [apply only_validation_required|intros acts].
  apply only_validation_rbind; [|intros ?; apply only_validation_MELDBehavior_init].
  destruct acts; try done.
  apply only_validation_rmap, only_validation_MELDAction_validate.
Qed.

Lemma only_validation_EmotionalState_validate v :
  only_validation (EmotionalState_validate v).
Proof.
  destruct v; simpl; try done.
  do 4 (apply only_validation_rbind;
        [apply only_validation_required|intros ?]).
  apply only_validation_EmotionalState_init.
Qed.

Lemma only_validation_model_validate_json t :
  only_validation (model_validate_json t).
Proof.
  destruct t as [|[]]; simpl; try done.
  apply only_validation_rbind; [apply only_validation_required|intros ?].
  apply only_validation_rbind; [apply only_validation_required|intros ?].
  apply only_validation_rbind; [apply only_validation_required|intros ?].
  apply only_validation_rbind;
    [apply only_validation_EmotionalState_validate|intros ?].
  apply only_validation_rbind; [apply only_validation_required|intros ?].
  apply only_validation_rbind; [apply only_validation_required|intros ?].
  apply only_validation_rbind;
    [apply only_validation_MELDBehavior_validate|intros ?].
  apply only_validation_rbind; [apply only_validation_required|intros ?].
  apply only_validation_MELDMessage_init.
Qed.

(** ** The two synthesised records *)

Ltac solve_range := split; apply Qle_bool_iff; reflexivity.

Ltac solve_elem := solve [repeat constructor].

Lemma fallback_message_Ok user_input error_msg :
  ∃ m, fallback_message user_input error_msg = Ok m ∧
       (intent m, persona m, name (behavior m), primary (emotional_state m))
         = classify user_input ∧
       confidence m = 0.6%Q ∧
       actions (behavior m) = safe_mode_actions ∧
       metadata m = Some (fallback_metadata error_msg) ∧
       conforming m.
Proof.
  unfold fallback_message, classify.
  destruct (any_in ["analyze"; "compare"; "evaluate"] _);
    [|destruct (any_in ["explore"; "discover"; "learn"] _);
      [|destruct (any_in ["build"; "create"; "make"] _)]];
    (eexists; split; [vm_compute; reflexivity|]);
    (split_and!; try reflexivity);
    (unfold conforming, conforming_emotion, conforming_behavior; simpl;
     split_and!; try solve_range; solve_elem).
Qed.

Lemma connection_fallback_Ok user_input :
  ∃ m, _create_connection_fallback user_input = Ok m ∧
       intent m = "connection_error" ∧ persona m = "Sage" ∧
       confidence m = 0.95%Q ∧
       metadata m = Some connection_metadata ∧
       conforming m.
Proof.
  eexists; split; [vm_compute; reflexivity|].
  split_and!; try reflexivity.
  unfold conforming, conforming_emotion, conforming_behavior; simpl.
  split_and!; try solve_range; solve_elem.
Qed.

(** ** Partial reconstruction *)

(** What holds of a record that [partial_message] managed to build. *)
Lemma partial_message_inv data user_input m :
  partial_message data user_input = Ok m →
  conforming m ∧
  actions (behavior m) = [assistance_action] ∧
  metadata m = Some partial_metadata ∧
  secondary (emotional_state m) = None ∧
  stability (emotional_state m) = None ∧
  py_get2 data "emotional_state" "primary" (JStr "helpful")
    = Ok (JStr (primary (emotional_state m))) ∧
  (i <- py_get2 data "emotional_state" "intensity" (JFloat 0.7) ;;
   clamp i 0 1)%res = Ok (JFloat (intensity (emotional_state m))) ∧
  (v <- py_get2 data "emotional_state" "valence" (JFloat 0.5) ;;
   clamp v (-1) 1)%res = Ok (JFloat (valence (emotional_state m))) ∧
  (a <- py_get2 data "emotional_state" "arousal" (JFloat 0.5) ;;
   clamp a 0 1)%res = Ok (JFloat (arousal (emotional_state m))).
Proof.
  unfold partial_message. intros H.
  apply rbind_Ok in H as (intent & _ & H).
  apply rbind_Ok in H as (p & _ & H).
  apply rbind_Ok in H as (persona & _ & H).
  apply rbind_Ok in H as (primary & Hprimary & H).
  apply rbind_Ok in H as (i & Hi & H).
  apply rbind_Ok in H as (intensity & Hintensity & H).
  apply rbind_Ok in H as (v & Hv & H).
  apply rbind_Ok in H as (valence & Hvalence & H).
  apply rbind_Ok in H as (a & Ha & H).
  apply rbind_Ok in H as (arousal & Harousal & H).
  apply rbind_Ok in H as (es & Hes & H).
  apply rbind_Ok in H as (emoji & _ & H).
  apply rbind_Ok in H as (response & _ & H).
  apply rbind_Ok in H as (n & _ & H).
  apply rbind_Ok in H as (name & _ & H).
  apply rbind_Ok in H as (goal & _ & H).
  apply rbind_Ok in H as (act & [= <-] & H).
  apply rbind_Ok in H as (be & Hbe & H).
  apply rbind_Ok in H as (c & _ & H).
  apply rbind_Ok in H as (confidence & _ & H).
  pose proof (conforming_emotion_init _ _ _ _ _ _ _ Hes) as Hces.
  apply EmotionalState_init_Ok in Hes
    as (-> & [= Hse] & [-> _] & [-> _] & [-> _] & [= Hst]).
  apply MELDBehavior_init_Ok in Hbe as (_ & Hnm & _ & Hacts).
  pose proof H
    as (_ & _ & Hm_es & _ & _ & Hm_be & _ & [= Hme])%MELDMessage_init_Ok.
  split.
  { eapply conforming_init; [exact Hces| |exact H].
    split; [done|]. rewrite Hacts. repeat constructor. }
  rewrite Hm_es, Hm_be, Hacts, <- Hse, <- Hst, <- Hme.
  split_and!; try done.
  - by rewrite Hi.
  - by rewrite Hv.
  - by rewrite Ha.
Qed.

(** ** One call of [_parse_meld_response] *)

Lemma parse_meld_response_run t user_input s :
  _parse_meld_response t user_input s =
  match model_validate_json t with
  | Ok m => (Ok m, map_stats incr_successful_parses s)
  | Raise e =>
      match t with
      | WellFormed data =>
          match partial_message data user_input with
          | Ok m => (Ok m, map_stats incr_fallbacks_used s)
          | Raise _ =>
              (fallback_message user_input
                 ("JSON parsing failed: " ++ str_exn e),
               map_stats incr_fallbacks_used
                 (map_stats incr_fallbacks_used s))
          end
      | Malformed =>
          (fallback_message user_input
             ("JSON parsing failed: " ++ str_exn e),
           map_stats incr_fallbacks_used s)
      end
  end.
Proof.
  pose proof (only_validation_model_validate_json t) as Hv.
  unfold _parse_meld_response, try_except_ValidationError, try_except,
    bind, lift, ret, update_stats, _create_partial_meld,
    _create_intelligent_fallback.
  destruct (model_validate_json t) as [m|[loc| | | |]]; try done.
  destruct t as [|data]; [done|].
  unfold json_loads.
  by destruct (partial_message data user_input).
Qed.

(** ** One call of [process_query] *)

Lemma process_query_unfold user_input w s :
  process_query user_input w s =
  let s0 := map_stats incr_total_requests s in
  if reachable w then
    match reply w with
    | Ok t =>
        match _parse_meld_response t user_input s0 with
        | (Ok m, s1) => (Ok m, recorded user_input m w true s1)
        | (Raise e, s1) => except_clause user_input w e s1
        end
    | Raise e => except_clause user_input w e s0
    end
  else (_create_connection_fallback user_input, s0).
Proof.
  cbv beta iota zeta delta
    [process_query bind lift update_stats try_except ret negb except_clause
     recorded _create_intelligent_fallback].
  destruct (reachable w); [|reflexivity].
  destruct (reply w) as [t|e].
  - destruct (_parse_meld_response t user_input _) as [[m|e] s1];
      [reflexivity|].
    destruct (fallback_message user_input (str_exn e)); reflexivity.
  - destruct (fallback_message user_input (str_exn e)); reflexivity.
Qed.

Lemma process_query_run user_input w s :
  ∃ m s',
    process_query user_input w s = (Ok m, s') ∧
    conforming m ∧
    produced user_input w m ∧
    interaction_history s' =
      (if reachable w
       then interaction_history s
              ++ [entry_of user_input m w (is_ok (reply w))]
       else interaction_history s)%list ∧
    total_requests (performance_stats s')
      = S (total_requests (performance_stats s)) ∧
    successful_parses (performance_stats s')
      = (successful_parses (performance_stats s)
         + match tier_of user_input w with Validated => 1 | _ => 0 end)%nat ∧
    fallbacks_used (performance_stats s')
      = (fallbacks_used (performance_stats s)
         + fallback_bumps user_input w)%nat ∧
    avg_confidence (performance_stats s')
      = (if reachable w
         then history_average (interaction_history s')
         else avg_confidence (performance_stats s)).
Proof.
  rewrite process_query_unfold.
  unfold produced, fallback_bumps, tier_of, partial_failed, except_clause.
  cbv zeta.
  destruct (reachable w) eqn:Hreach; simpl negb; simpl andb; cbv iota.
  2:{ destruct (connection_fallback_Ok user_input)
        as (m & Hm & _ & _ & _ & _ & Hc).
      exists m, (map_stats incr_total_requests s).
      rewrite Hm. simpl.
      split_and!; try done; lia. }
  destruct (reply w) as [t|e] eqn:Hreply.
  2:{ destruct (fallback_message_Ok user_input (str_exn e))
        as (m & Hm & _ & _ & _ & _ & Hc).
      rewrite Hm. do 2 eexists. split; [reflexivity|]. simpl.
      split_and!; eauto; lia. }
  rewrite parse_meld_response_run.
  destruct t as [|data]; simpl model_validate_json; simpl is_ok; cbv iota.
  { destruct (fallback_message_Ok user_input
                ("JSON parsing failed: "
                 ++ str_exn (ValidationError "json_invalid")))
      as (m & Hm & _ & _ & _ & _ & Hc).
    rewrite Hm. do 2 eexists. split; [reflexivity|]. simpl.
    split_and!; eauto; lia. }
  destruct (MELDMessage_validate data) as [m|e] eqn:Hval.
  { do 2 eexists. split; [reflexivity|]. simpl.
    split_and!; eauto using conforming_validate; lia. }
  destruct (partial_message data user_input) as [m|e'] eqn:Hpart.
  { do 2 eexists. split; [reflexivity|]. simpl.
    split_and!; eauto; try lia.
    by apply partial_message_inv in Hpart as [? _]. }
  destruct (fallback_message_Ok user_input
              ("JSON parsing failed: " ++ str_exn e))
    as (m & Hm & _ & _ & _ & _ & Hc).
  rewrite Hm. do 2 eexists. split; [reflexivity|]. simpl.
  split_and!; eauto; lia.
Qed.

Lemma create_partial_meld_run data user_input s :
  _create_partial_meld data user_input s
  = (partial_message data user_input, map_stats incr_fallbacks_used s).
Proof. reflexivity. Qed.

(** ** Substring search *)

Lemma append_String c s t : String c s ++ t = String c (s ++ t).
Proof. reflexivity. Qed.






(** ** The validator returns what it reads *)












(** ** When partial reconstruction succeeds *)

Lemma Qle_bool_refl q : Qle_bool q q = true.
Proof. apply Qle_bool_iff, Qle_refl. Qed.

Lemma clamp_clampable x lo hi :
  Qle_bool lo hi = true → is_clampable x = true →
  ∃ q, clamp x lo hi = Ok (JFloat q) ∧
       Qle_bool lo q && Qle_bool q hi = true.
Proof.
  intros Hlohi Hx.
  destruct x as [| |[p| | |]| | |]; try discriminate;
    unfold clamp, py_max, py_min, py_lt; simpl.
  - destruct (Qle_bool lo p) eqn:Hlo; simpl.
    + destruct (Qle_bool p hi) eqn:Hhi; simpl.
      * exists p. by rewrite Hlo, Hhi.
      * exists hi. by rewrite Hlohi, Qle_bool_refl.
    + rewrite Hlohi. simpl. exists lo. by rewrite Hlohi, Qle_bool_refl.
  - exists hi. by rewrite Hlohi, Qle_bool_refl.
  - rewrite Hlohi. simpl. exists lo. by rewrite Hlohi, Qle_bool_refl.
Qed.


















(** ** Sessions *)

Lemma fold_left_Qplus l a :
  (fold_left Qplus l a == a + fold_right Qplus 0 l)%Q.
Proof.
  revert a. induction l as [|c l IH]; intros a; simpl.
  - by rewrite Qplus_0_r.
  - rewrite IH. by rewrite Qplus_assoc.
Qed.


Lemma run_app queries1 queries2 s :
  run (queries1 ++ queries2)%list s = run queries2 (run queries1 s).
Proof.
  revert s. induction queries1 as [|[q w] queries1 IH]; intros s; simpl;
    [done|apply IH].
Qed.

(** What a session does to the counters. *)
Lemma run_counters queries s :
  fallbacks_used (performance_stats (run queries s))
    = (fallbacks_used (performance_stats s)
       + list_sum (map (λ qw, fallback_bumps qw.1 qw.2) queries))%nat ∧
  total_requests (performance_stats (run queries s))
    = (total_requests (performance_stats s) + length queries)%nat ∧
  length (interaction_history (run queries s))
    = (length (interaction_history s)
       + length (filter (λ qw, reachable qw.2 = true) queries))%nat.
Proof.
  revert s. induction queries as [|[q w] queries IH]; intros s.
  - simpl. split_and!; lia.
  - simpl run.
    destruct (process_query_run q w s)
      as (m & s' & Hrun & _ & _ & Hhist & Htot & _ & Hfb & _).
    rewrite Hrun. simpl snd.
    destruct (IH s') as (IHfb & IHtot & IHlen).
    rewrite IHfb, IHtot, IHlen, Hfb, Htot, Hhist. simpl.
    split_and!; try lia.
    rewrite filter_cons. simpl.
    destruct (reachable w) eqn:Hreach.
    + rewrite decide_True by done. rewrite length_app. simpl. lia.
    + rewrite decide_False by done. lia.
Qed.

(** The stored average is the average over the history, as soon as the
    history is not empty. *)
Lemma run_average queries s :
  (interaction_history s ≠ [] →
   avg_confidence (performance_stats s)
   = history_average (interaction_history s)) →
  interaction_history (run queries s) ≠ [] →
  avg_confidence (performance_stats (run queries s))
  = history_average (interaction_history (run queries s)).
Proof.
  revert s. induction queries as [|[q w] queries IH]; intros s Hs.
  - simpl. exact Hs.
  - simpl run.
    destruct (process_query_run q w s)
      as (m & s' & Hrun & _ & _ & Hhist & _ & _ & _ & Havg).
    rewrite Hrun. simpl snd. apply IH.
    destruct (reachable w); [done|].
    rewrite Hhist, Havg. exact Hs.
Qed.

Lemma run_average_empty queries s :
  interaction_history (run queries s) = [] →
  avg_confidence (performance_stats (run queries s))
  = avg_confidence (performance_stats s).
Proof.
  revert s. induction queries as [|[q w] queries IH]; intros s; [done|].
  simpl run.
  destruct (process_query_run q w s)
    as (m & s' & Hrun & _ & _ & Hhist & _ & _ & _ & Havg).
  rewrite Hrun. simpl snd. intros Hempty.
  rewrite (IH s' Hempty).
  destruct (reachable w); [|done].
  exfalso.
  pose proof (run_counters queries s') as (_ & _ & Hlen).
  rewrite Hempty, Hhist, length_app in Hlen. simpl in Hlen. lia.
Qed.


(** * The claims *)

(** C1, as amended. [process_query] returns exactly one record for every
    query; it appends exactly one entry to the history when the probe
    succeeds, and none when the probe fails. *)
Theorem process_query_one_record_one_entry user_input w s :
  ∃ m s',
    process_query user_input w s = (Ok m, s') ∧
    interaction_history s' =
      (if reachable w
       then interaction_history s
              ++ [entry_of user_input m w (is_ok (reply w))]
       else interaction_history s)%list.
Proof.
  destruct (process_query_run user_input w s)
    as (m & s' & Hrun & _ & _ & Hhist & _).
  eauto.
Qed.

(** C1 as stated fails: with the probe failing, the call returns its
    record and the history gains no entry. *)
Lemma offline_query_not_recorded :
  is_ok (fst (process_query "hello" offline __init__)) = true ∧
  ¬ ∃ e, interaction_history (snd (process_query "hello" offline __init__))
         = (interaction_history __init__ ++ [e])%list.
Proof.
  split; [reflexivity|].
  intros [e He]. vm_compute in He. discriminate He.
Qed.

(** C2. Whatever the reply text and the transport do, [process_query]
    returns a record whose intensity, arousal, stability (when present)
    and confidence lie in [0,1], whose valence lies in [-1,1], whose
    persona is one of the five personas and whose behaviour name is one
    of the ten behaviour names. *)
Theorem process_query_within_ranges user_input w s :
  ∃ m s',
    process_query user_input w s = (Ok m, s') ∧
    in_range 0 1 (intensity (emotional_state m)) ∧
    in_range (-1) 1 (valence (emotional_state m)) ∧
    in_range 0 1 (arousal (emotional_state m)) ∧
    match stability (emotional_state m) with
    | Some st => in_range 0 1 st
    | None => True
    end ∧
    in_range 0 1 (confidence m) ∧
    persona m ∈ personas ∧
    name (behavior m) ∈ behavior_names.
Proof.
  destruct (process_query_run user_input w s)
    as (m & s' & Hrun & Hc & _).
  destruct Hc as (Hp & (Hi & Hv & Ha & Hs) & (Hn & _) & Hco).
  exists m, s'. by split_and!.
Qed.

(** C3, as amended. When the probe succeeds, the success flag of the
    entry a query leaves is true exactly when the round trip delivered a
    reply text, whichever strategy of [_parse_meld_response] then built
    the record, and false exactly when the round trip raised. An entry of
    the strict validator path is therefore flagged true. *)
Theorem success_flag_tells_reply_arrived user_input w s :
  reachable w = true →
  ∃ m s' e,
    process_query user_input w s = (Ok m, s') ∧
    interaction_history s' = (interaction_history s ++ [e])%list ∧
    i_success e = is_ok (reply w) ∧
    (if i_success e then True else tier_of user_input w = Synthesized) ∧
    match tier_of user_input w with
    | Validated => i_success e = true
    | _ => True
    end.
Proof.
  intros Hreach.
  destruct (process_query_run user_input w s)
    as (m & s' & Hrun & _ & _ & Hhist & _).
  rewrite Hreach in Hhist.
  exists m, s', (entry_of user_input m w (is_ok (reply w))).
  split_and!; try done; simpl; unfold tier_of; rewrite Hreach; simpl.
  - by destruct (reply w).
  - destruct (reply w) as [t|]; simpl; [|done].
    destruct (is_ok (model_validate_json t)); [done|].
    destruct t as [|data]; [done|].
    by destruct (is_ok (partial_message data user_input)).
Qed.

Lemma success_flag_tells_reply_arrived_witness :
  reachable timing_out = true ∧
  ∃ m s' e,
    process_query "hello" timing_out __init__ = (Ok m, s') ∧
    interaction_history s' = (interaction_history __init__ ++ [e])%list ∧
    i_success e = is_ok (reply timing_out) ∧
    (if i_success e then True else tier_of "hello" timing_out = Synthesized) ∧
    match tier_of "hello" timing_out with
    | Validated => i_success e = true
    | _ => True
    end.
Proof.
  split; [reflexivity|].
  apply (success_flag_tells_reply_arrived "hello" timing_out __init__).
  reflexivity.
Defined.

(** C3 as stated fails: the reply [{}] does not pass the validator, the
    record is rebuilt by partial reconstruction, and the entry is flagged
    as a success. *)
Lemma partial_record_flagged_success :
  is_ok (model_validate_json (WellFormed (obj []))) = false ∧
  tier_of "hello" (answering (WellFormed (obj []))) = PartiallyRecovered ∧
  map i_success
    (interaction_history
       (snd (process_query "hello" (answering (WellFormed (obj [])))
               __init__)))
  = [true].
Proof. split_and!; reflexivity. Qed.

(** C4, as amended. [process_query] never raises. A record built by
    partial reconstruction or by heuristic synthesis carries the key
    [fallback_type] in its metadata; the record of the connectivity
    fallback carries [error_type] and [suggested_action] instead, and no
    [fallback_type]. *)
Theorem process_query_absorbs_errors user_input w s :
  ∃ m s',
    process_query user_input w s = (Ok m, s') ∧
    match tier_of user_input w with
    | Validated => True
    | PartiallyRecovered =>
        ∃ md, metadata m = Some md ∧
              md !! "fallback_type" = Some (JStr "partial_extraction")
    | Synthesized =>
        ∃ md, metadata m = Some md ∧
              md !! "fallback_type" = Some (JStr "intelligent_analysis")
    | ConnectionFallback =>
        ∃ md, metadata m = Some md ∧
              md !! "fallback_type" = None ∧
              md !! "error_type" = Some (JStr "connection_failure")
    end.
Proof.
  destruct (process_query_run user_input w s)
    as (m & s' & Hrun & _ & Hprod & _).
  exists m, s'. split; [done|].
  unfold produced in Hprod.
  destruct (tier_of user_input w); [done| | |].
  - destruct Hprod as (data & _ & Hm).
    apply partial_message_inv in Hm as (_ & _ & Hmd & _).
    exists partial_metadata. by split.
  - destruct Hprod as (error_msg & Hm).
    destruct (fallback_message_Ok user_input error_msg)
      as (m' & Hm' & _ & _ & _ & Hmd & _).
    rewrite Hm in Hm'. injection Hm' as <-.
    exists (fallback_metadata error_msg). split; [done|].
    unfold fallback_metadata. apply lookup_insert_eq.
  - destruct (connection_fallback_Ok user_input)
      as (m' & Hm' & _ & _ & _ & Hmd & _).
    rewrite Hprod in Hm'. injection Hm' as <-.
    exists connection_metadata. by split_and!.
Qed.

(** C4 as stated fails: the record of the connectivity fallback has a
    metadata mapping without the key [fallback_type]. *)
Lemma connection_fallback_lacks_fallback_type :
  ∃ m md,
    fst (process_query "hello" offline __init__) = Ok m ∧
    tier_of "hello" offline = ConnectionFallback ∧
    metadata m = Some md ∧
    md !! "fallback_type" = None.
Proof. do 2 eexists. split_and!; reflexivity. Qed.

(** C7. A record built by [_create_partial_meld] has exactly one action,
    [state] / [assistance] / [active], whatever actions the source
    brought, and its metadata maps [fallback_type] to
    [partial_extraction]. *)
Theorem partial_meld_actions_and_metadata data user_input s m s' :
  _create_partial_meld data user_input s = (Ok m, s') →
  actions (behavior m) = [assistance_action] ∧
  type assistance_action = "state" ∧
  target assistance_action = Some "assistance" ∧
  value assistance_action = Some "active" ∧
  ∃ md, metadata m = Some md ∧
        md !! "fallback_type" = Some (JStr "partial_extraction").
Proof.
  rewrite create_partial_meld_run. intros [= Hm _].
  apply partial_message_inv in Hm as (_ & Hacts & Hmd & _).
  split_and!; try done.
  by exists partial_metadata.
Qed.

Lemma partial_meld_actions_and_metadata_witness :
  ∃ m s',
    _create_partial_meld reply_with_actions "hello" __init__ = (Ok m, s') ∧
    actions (behavior m) = [assistance_action] ∧
    type assistance_action = "state" ∧
    target assistance_action = Some "assistance" ∧
    value assistance_action = Some "active" ∧
    ∃ md, metadata m = Some md ∧
          md !! "fallback_type" = Some (JStr "partial_extraction").
Proof.
  do 2 eexists. split; [vm_compute; reflexivity|].
  eapply (partial_meld_actions_and_metadata reply_with_actions "hello"
            __init__).
  vm_compute; reflexivity.
Defined.

(** C10. A record built by [_create_partial_meld] has no secondary
    emotion and no stability, whatever the source supplies for them; its
    primary emotion, intensity, valence and arousal are those of the
    source (or the defaults), the last three clamped. *)
Theorem partial_meld_drops_secondary_and_stability data user_input s m s' :
  _create_partial_meld data user_input s = (Ok m, s') →
  secondary (emotional_state m) = None ∧
  stability (emotional_state m) = None ∧
  py_get2 data "emotional_state" "primary" (JStr "helpful")
    = Ok (JStr (primary (emotional_state m))) ∧
  (i <- py_get2 data "emotional_state" "intensity" (JFloat 0.7) ;;
   clamp i 0 1)%res = Ok (JFloat (intensity (emotional_state m))) ∧
  (v <- py_get2 data "emotional_state" "valence" (JFloat 0.5) ;;
   clamp v (-1) 1)%res = Ok (JFloat (valence (emotional_state m))) ∧
  (a <- py_get2 data "emotional_state" "arousal" (JFloat 0.5) ;;
   clamp a 0 1)%res = Ok (JFloat (arousal (emotional_state m))).
Proof.
  rewrite create_partial_meld_run. intros [= Hm _].
  by apply partial_message_inv in Hm as (_ & _ & _ & ? & ? & ? & ? & ? & ?).
Qed.

Lemma partial_meld_drops_secondary_and_stability_witness :
  ∃ m s',
    _create_partial_meld reply_with_emotion "hello" __init__ = (Ok m, s') ∧
    py_get2 reply_with_emotion "emotional_state" "secondary" JNull
      = Ok (JStr "calm") ∧
    py_get2 reply_with_emotion "emotional_state" "stability" JNull
      = Ok (JFloat 0.7) ∧
    secondary (emotional_state m) = None ∧
    stability (emotional_state m) = None ∧
    primary (emotional_state m) = "curious" ∧
    intensity (emotional_state m) = 0.9%Q ∧
    valence (emotional_state m) = 0.2%Q ∧
    arousal (emotional_state m) = 1%Q.
Proof.
  do 2 eexists. split; [vm_compute; reflexivity|].
  split; [reflexivity|]. split; [reflexivity|].
  pose proof (partial_meld_drops_secondary_and_stability reply_with_emotion
                "hello" __init__ _ _ eq_refl) as (Hse & Hst & _).
  split; [exact Hse|]. split; [exact Hst|].
  split_and!; reflexivity.
Defined.










(** A failed partial reconstruction is counted twice: once by
    [_create_partial_meld] before it raises, once by
    [_create_intelligent_fallback]. *)
Lemma failed_partial_counted_twice :
  partial_failed "hello" (answering (WellFormed reply_with_flat_emotion))
    = true ∧
  fallbacks_used
    (performance_stats
       (run [("hello", answering (WellFormed reply_with_flat_emotion))]
          __init__))
    = 2%nat.
Proof. split; reflexivity. Qed.

(** * Further properties *)

(** ** Sessions: the history and the counters *)

Lemma count_where_cons P qw queries :
  count_where P (qw :: queries)
  = ((if P qw then 1 else 0) + count_where P queries)%nat.
Proof.
  unfold count_where. rewrite filter_cons.
  destruct (P qw); [rewrite decide_True by done|rewrite decide_False by done];
    reflexivity.
Qed.

Lemma entry_of_conforming user_input m w success :
  conforming m → entry_conforming (entry_of user_input m w success).
Proof. intros (Hp & _ & (Hn & _) & Hc). by split_and!. Qed.

Lemma run_history queries s :
  ∃ new,
    interaction_history (run queries s)
      = (interaction_history s ++ new)%list ∧
    Forall entry_conforming new ∧
    length new = count_where (λ qw, reachable qw.2) queries.
Proof.
  revert s. induction queries as [|[q w] queries IH]; intros s.
  - exists []. simpl. by rewrite app_nil_r.
  - simpl run.
    destruct (process_query_run q w s)
      as (m & s' & Hrun & Hc & _ & Hhist & _).
    rewrite Hrun. simpl snd.
    destruct (IH s') as (new & Hnew & Hconf & Hlen).
    rewrite count_where_cons. simpl.
    destruct (reachable w).
    + exists (entry_of q m w (is_ok (reply w)) :: new).
      rewrite Hnew, Hhist, <- app_assoc. split_and!; [done| |simpl; lia].
      constructor; [by apply entry_of_conforming|done].
    + exists new. rewrite Hnew, Hhist. by split_and!.
Qed.

(** X1. A session only appends to the history: the history before the
    session is a prefix of the history after it, one entry is added for
    each query whose probe succeeded, and every added entry has a
    confidence in [0,1], a persona among the five and a behaviour name
    among the ten. *)
Theorem history_is_append_only queries s :
  ∃ new,
    interaction_history (run queries s)
      = (interaction_history s ++ new)%list ∧
    length new = count_where (λ qw, reachable qw.2) queries ∧
    Forall entry_conforming new.
Proof.
  destruct (run_history queries s) as (new & ? & ? & ?). eauto.
Qed.

Lemma process_query_accounting q w s :
  let s' := snd (process_query q w s) in
  successful_parses (performance_stats s')
    = (successful_parses (performance_stats s)
       + (if validated (q, w) then 1 else 0))%nat ∧
  (successful_parses (performance_stats s')
   + fallbacks_used (performance_stats s')
   + (if probe_failed (q, w) then 1 else 0)
   = successful_parses (performance_stats s)
     + fallbacks_used (performance_stats s)
     + 1 + (if partial_raised (q, w) then 1 else 0))%nat.
Proof.
  destruct (process_query_run q w s)
    as (m & s' & Hrun & _ & _ & _ & _ & Hsp & Hfb & _).
  rewrite Hrun. simpl snd. cbv zeta.
  rewrite Hsp, Hfb.
  unfold validated, probe_failed, partial_raised, fallback_bumps,
    partial_failed, tier_of. simpl.
  destruct (reachable w); simpl; [|lia].
  destruct (reply w) as [[|data]|]; simpl; try lia.
  destruct (is_ok (MELDMessage_validate data)); simpl; [lia|].
  destruct (is_ok (partial_message data q)); simpl; lia.
Qed.

Lemma session_counters_balance_aux queries s :
  total_requests (performance_stats (run queries s))
    = (total_requests (performance_stats s) + length queries)%nat ∧
  successful_parses (performance_stats (run queries s))
    = (successful_parses (performance_stats s)
       + count_where validated queries)%nat ∧
  (successful_parses (performance_stats (run queries s))
   + fallbacks_used (performance_stats (run queries s))
   + count_where probe_failed queries
   = successful_parses (performance_stats s)
     + fallbacks_used (performance_stats s)
     + length queries + count_where partial_raised queries)%nat.
Proof.
  revert s. induction queries as [|[q w] queries IH]; intros s.
  - simpl. unfold count_where. simpl. lia.
  - simpl run. destruct (IH (snd (process_query q w s))) as (IHt & IHs & IHb).
    pose proof (process_query_accounting q w s) as [Hs Hb].
    destruct (process_query_run q w s)
      as (m & s' & Hrun & _ & _ & _ & Htot & _).
    rewrite Hrun in *. simpl snd in *. cbv zeta in Hs, Hb.
    rewrite !count_where_cons. simpl length.
    split_and!; lia.
Qed.

(** X2. The counters of a session balance: [total_requests] grows by the
    number of queries, [successful_parses] by the number of queries
    answered on the validator path, and every query is accounted for
    once among the successful parses, the fallbacks and the failed
    probes, but for the queries whose partial reconstruction raised,
    which the fallbacks count twice. *)
Theorem session_counters_balance queries s :
  total_requests (performance_stats (run queries s))
    = (total_requests (performance_stats s) + length queries)%nat ∧
  successful_parses (performance_stats (run queries s))
    = (successful_parses (performance_stats s)
       + count_where validated queries)%nat ∧
  (successful_parses (performance_stats (run queries s))
   + fallbacks_used (performance_stats (run queries s))
   + count_where probe_failed queries
   = successful_parses (performance_stats s)
     + fallbacks_used (performance_stats s)
     + length queries + count_where partial_raised queries)%nat.
Proof. apply session_counters_balance_aux. Qed.

(** ** The stored average *)

Lemma inject_Z_succ n :
  (inject_Z (Z.of_nat (S n)) == inject_Z (Z.of_nat n) + 1)%Q.
Proof. by rewrite Nat2Z.inj_succ, <- Z.add_1_r, inject_Z_plus. Qed.

Lemma sum_bounds cs :
  Forall (in_range 0 1) cs →
  (0 <= fold_right Qplus 0 cs)%Q ∧
  (fold_right Qplus 0 cs <= inject_Z (Z.of_nat (length cs)))%Q.
Proof.
  induction 1 as [|c cs [Hlo Hhi] _ [IHlo IHhi]]; simpl fold_right.
  - split; apply Qle_refl.
  - split.
    + exact (Qplus_le_compat 0 c 0 _ Hlo IHlo).
    + simpl length. rewrite inject_Z_succ, Qplus_comm.
      by apply Qplus_le_compat.
Qed.

Lemma history_average_bounds h :
  h ≠ [] → Forall entry_conforming h → in_range 0 1 (history_average h).
Proof.
  intros Hne Hh.
  assert (Forall (in_range 0 1) (map i_confidence h)) as Hcs.
  { apply Forall_map. eapply Forall_impl; [exact Hh|]. by intros e [? _]. }
  apply sum_bounds in Hcs as [Hlo Hhi].
  assert (0 < inject_Z (Z.of_nat (length (map i_confidence h))))%Q as Hpos.
  { rewrite length_map. destruct h; [done|].
    simpl length. rewrite inject_Z_succ.
    apply Qlt_le_trans with (y := (0 + 1)%Q); [done|].
    apply Qplus_le_compat; [|apply Qle_refl].
    change 0%Q with (inject_Z 0). rewrite <- Zle_Qle. lia. }
  unfold in_range, history_average, py_sum.
  rewrite fold_left_Qplus, Qplus_0_l. split.
  - apply Qle_shift_div_l; [done|]. by rewrite Qmult_0_l.
  - apply Qle_shift_div_r; [done|]. by rewrite Qmult_1_l.
Qed.

(** X3. After any session of a fresh processor the stored average
    confidence lies in [0,1]. *)
Theorem average_confidence_in_unit_interval queries :
  in_range 0 1 (avg_confidence (performance_stats (run queries __init__))).
Proof.
  destruct (run_history queries __init__) as (new & Hnew & Hconf & _).
  simpl in Hnew.
  destruct (interaction_history (run queries __init__)) as [|e h] eqn:Hh.
  - rewrite run_average_empty by done. simpl. solve_range.
  - rewrite run_average; [|done|by rewrite Hh].
    rewrite Hh, Hnew. apply history_average_bounds; [|done].
    by rewrite <- Hnew.
Qed.

(** ** [_prepare_messages] *)

Lemma last_n_length {A} n (l : list A) :
  length (last_n n l) = Nat.min n (length l).
Proof. unfold last_n. rewrite length_drop. lia. Qed.

Lemma last_n_suffix {A} n (l : list A) :
  l = (take (length l - n) l ++ last_n n l)%list.
Proof. unfold last_n. by rewrite take_drop. Qed.

Lemma last_n_app_singleton {A} n (l : list A) x :
  last (last_n (S n) (l ++ [x])) = Some x.
Proof.
  unfold last_n. rewrite length_app. simpl length.
  rewrite drop_app_le by lia.
  by rewrite last_app.
Qed.

Lemma last_map {A B} (f : A → B) (l : list A) x :
  last l = Some x → last (map f l) = Some (f x).
Proof.
  induction l as [|a [|b l] IH]; simpl; [done|by intros [= ->]|].
  exact IH.
Qed.

Lemma append_empty_r s : s ++ "" = s.
Proof. induction s as [|c s IH]; [done|]. by rewrite append_String, IH. Qed.

(** X4. The system message of a request names the personas of the last
    three recorded interactions, in the order they were recorded, and
    of all of them when fewer were recorded; with an empty history it is
    the system prompt alone. The messages are a system message followed
    by a user message. *)
Theorem prepare_messages_names_last_three PROMPT user_input context s :
  (∃ older,
     map i_persona (interaction_history s)
     = (older ++ recent_personas s)%list) ∧
  length (recent_personas s) = Nat.min 3 (length (interaction_history s)) ∧
  map fst (_prepare_messages PROMPT user_input context s)
    = ["system"; "user"] ∧
  match interaction_history s with
  | [] =>
      map snd (_prepare_messages PROMPT user_input context s) !! 0%nat
      = Some PROMPT
  | _ :: _ =>
      map snd (_prepare_messages PROMPT user_input context s) !! 0%nat
      = Some (PROMPT ++ newline
              ++ "Recent interaction context: You've been acting as "
              ++ join ", " (recent_personas s) ++ " in recent exchanges.")
  end.
Proof.
  split_and!.
  - exists (map i_persona
              (take (length (interaction_history s) - 3)
                 (interaction_history s))).
    unfold recent_personas. rewrite <- map_app. f_equal. apply last_n_suffix.
  - unfold recent_personas. by rewrite length_map, last_n_length.
  - reflexivity.
  - unfold _prepare_messages, experience_context.
    destruct (interaction_history s) eqn:Hh; simpl.
    + by rewrite append_empty_r.
    + reflexivity.
Qed.

(** X5. Whatever the session, the personas a request names are among
    the five personas of the schema. *)
Theorem recent_personas_are_personas queries :
  Forall (λ p, p ∈ personas) (recent_personas (run queries __init__)).
Proof.
  destruct (run_history queries __init__) as (new & Hnew & Hconf & _).
  simpl in Hnew. unfold recent_personas, last_n. rewrite Hnew.
  apply Forall_map, Forall_drop.
  eapply Forall_impl; [exact Hconf|]. by intros e (_ & ? & _).
Qed.

(** X6. When the probe succeeds, the persona of the record a query is
    answered with is the last persona the next request names, and that
    query is the one kept as [last_user_query]. *)
Theorem answer_heads_next_context user_input w s :
  reachable w = true →
  ∃ m s',
    process_query user_input w s = (Ok m, s') ∧
    last (recent_personas s') = Some (persona m) ∧
    last_user_query s' = user_input ∧
    last_processing_time s' = elapsed w.
Proof.
  intros Hreach.
  destruct (process_query_run user_input w s)
    as (m & s' & Hrun & _ & _ & Hhist & _).
  exists m, s'. rewrite Hreach in Hhist.
  split_and!; [done| | |].
  - unfold recent_personas. rewrite Hhist.
    change (persona m)
      with (i_persona (entry_of user_input m w (is_ok (reply w)))).
    apply last_map, last_n_app_singleton.
  - rewrite process_query_unfold, Hreach in Hrun. cbv zeta in Hrun.
    unfold except_clause in Hrun.
    destruct (reply w) as [t|e].
    + destruct (_parse_meld_response t user_input _) as [[m'|e] s1].
      * by injection Hrun as _ <-.
      * destruct (fallback_message user_input (str_exn e));
          [by injection Hrun as _ <-|discriminate].
    + destruct (fallback_message user_input (str_exn e));
        [by injection Hrun as _ <-|discriminate].
  - rewrite process_query_unfold, Hreach in Hrun. cbv zeta in Hrun.
    unfold except_clause in Hrun.
    destruct (reply w) as [t|e].
    + destruct (_parse_meld_response t user_input _) as [[m'|e] s1].
      * by injection Hrun as _ <-.
      * destruct (fallback_message user_input (str_exn e));
          [by injection Hrun as _ <-|discriminate].
    + destruct (fallback_message user_input (str_exn e));
        [by injection Hrun as _ <-|discriminate].
Qed.

Lemma answer_heads_next_context_witness :
  reachable (answering (WellFormed reply_with_actions)) = true ∧
  ∃ m s',
    process_query "hello" (answering (WellFormed reply_with_actions))
      __init__ = (Ok m, s') ∧
    last (recent_personas s') = Some (persona m) ∧
    last_user_query s' = "hello" ∧
    last_processing_time s'
      = elapsed (answering (WellFormed reply_with_actions)).
Proof.
  split; [reflexivity|].
  apply (answer_heads_next_context "hello"
           (answering (WellFormed reply_with_actions)) __init__).
  reflexivity.
Defined.

(** ** [show_performance_stats] *)

Lemma count_where_le P queries : (count_where P queries <= length queries)%nat.
Proof.
  induction queries as [|qw queries IH]; [done|].
  rewrite count_where_cons. simpl. destruct (P qw); lia.
Qed.

Lemma rate_bounds (a b : Z) :
  (0 < b)%Z → (- b <= a)%Z → (a <= b)%Z →
  in_range (-100) 100 (inject_Z a / inject_Z b * 100)%Q.
Proof.
  intros Hb Hlo Hhi.
  assert (0 < inject_Z b)%Q as Hpos.
  { change 0%Q with (inject_Z 0). by rewrite <- Zlt_Qlt. }
  assert (-1 <= inject_Z a / inject_Z b)%Q as H1.
  { apply Qle_shift_div_l; [done|].
    change (-1)%Q with (inject_Z (-1)).
    rewrite <- inject_Z_mult, <- Zle_Qle. lia. }
  assert (inject_Z a / inject_Z b <= 1)%Q as H2.
  { apply Qle_shift_div_r; [done|].
    rewrite Qmult_1_l, <- Zle_Qle. lia. }
  split.
  - exact (Qmult_le_compat_r _ _ 100 H1 ltac:(done)).
  - exact (Qmult_le_compat_r _ _ 100 H2 ltac:(done)).
Qed.

(** X7. The success rate shown after a session of a fresh processor is
    100 times the number of queries answered on the validator path plus
    the number of failed probes minus the number of partial
    reconstructions that raised, over the number of queries (over 1 for
    an empty session): a failed probe counts as a success, a
    reconstruction that raised as two failures. The rate lies between
    -100 and 100. *)
Theorem success_rate_of_session queries :
  success_rate (performance_stats (run queries __init__))
  = (inject_Z (Z.of_nat (count_where validated queries)
               + Z.of_nat (count_where probe_failed queries)
               - Z.of_nat (count_where partial_raised queries))
     / inject_Z (Z.of_nat (Nat.max (length queries) 1)) * 100)%Q ∧
  in_range (-100) 100
    (success_rate (performance_stats (run queries __init__))).
Proof.
  destruct (session_counters_balance_aux queries __init__)
    as (Htot & Hsp & Hbal).
  simpl in Htot, Hsp, Hbal.
  pose proof (count_where_le validated queries).
  pose proof (count_where_le probe_failed queries).
  pose proof (count_where_le partial_raised queries).
  unfold success_rate. rewrite Htot.
  assert (Z.of_nat (length queries)
          - Z.of_nat (fallbacks_used
                        (performance_stats (run queries __init__)))
          = Z.of_nat (count_where validated queries)
            + Z.of_nat (count_where probe_failed queries)
            - Z.of_nat (count_where partial_raised queries))%Z as -> by lia.
  split; [done|].
  apply rate_bounds; lia.
Qed.

(** ** [display_meld_response] *)

Lemma shows_fallback_marked m kind rest :
  metadata m = Some (<["fallback_type" := JStr kind]> rest) →
  kind ≠ "" → shows_fallback m = true.
Proof.
  intros Hmd Hkind. unfold shows_fallback, dict_get. rewrite Hmd.
  rewrite bool_decide_eq_false_2 by apply insert_non_empty.
  rewrite lookup_insert_eq. simpl.
  by destruct (String.eqb_spec kind "").
Qed.

Lemma shows_fallback_connection m :
  metadata m = Some connection_metadata → shows_fallback m = false.
Proof.
  intros Hmd. unfold shows_fallback. rewrite Hmd.
  apply andb_false_intro2. reflexivity.
Qed.

(** X8. A record built by partial reconstruction or by heuristic
    synthesis is displayed with the border [bright_red], whatever the
    processing time; the record of the connectivity fallback is not
    marked as a fallback, its border is never [bright_red], and at the
    processing time 0.0 the callers of [display_meld_response] leave as
    the default it is [green]. *)
Theorem fallback_border user_input w s processing_time :
  ∃ m s',
    process_query user_input w s = (Ok m, s') ∧
    match tier_of user_input w with
    | PartiallyRecovered | Synthesized =>
        border_style m processing_time = "bright_red"
    | ConnectionFallback =>
        border_style m processing_time ≠ "bright_red" ∧
        border_style m 0 = "green"
    | Validated => True
    end.
Proof.
  destruct (process_query_run user_input w s)
    as (m & s' & Hrun & _ & Hprod & _).
  exists m, s'. split; [done|].
  unfold produced in Hprod. unfold border_style.
  destruct (tier_of user_input w); [done| | |].
  - destruct Hprod as (data & _ & Hm).
    apply partial_message_inv in Hm as (_ & _ & Hmd & _).
    by rewrite (shows_fallback_marked m "partial_extraction" _ Hmd).
  - destruct Hprod as (error_msg & Hm).
    destruct (fallback_message_Ok user_input error_msg)
      as (m' & Hm' & _ & _ & _ & Hmd & _).
    rewrite Hm in Hm'. injection Hm' as <-.
    by rewrite (shows_fallback_marked m "intelligent_analysis" _ Hmd).
  - destruct (connection_fallback_Ok user_input)
      as (m' & Hm' & _ & _ & _ & Hmd & _).
    rewrite Hprod in Hm'. injection Hm' as <-.
    rewrite (shows_fallback_connection m Hmd). split; [|reflexivity].
    by repeat case_match.
Qed.

Lemma explained_behavior b :
  b ∈ behavior_names → behavior_explanations !! b ≠ None.
Proof.
  intros Hb. apply list_elem_of_In in Hb. simpl in Hb.
  repeat (destruct Hb as [<-|Hb]; [by vm_compute|]). done.
Qed.

Lemma explained_action ty :
  ty ∈ action_types →
  action_explanations !! ty ≠ None ∧ action_icons !! ty ≠ None.
Proof.
  intros Hty. apply list_elem_of_In in Hty. simpl in Hty.
  repeat (destruct Hty as [<-|Hty]; [by vm_compute|]). done.
Qed.

(** X9. For every record [process_query] returns, the display finds an
    explanation of its behaviour, and an explanation and an icon of each
    of its actions, in its tables: the default texts
    "General cognitive processing approach" and "cognitive adjustment"
    and the default icon are never shown. *)
Theorem display_never_uses_defaults user_input w s :
  ∃ m s',
    process_query user_input w s = (Ok m, s') ∧
    (∃ text, behavior_explanations !! name (behavior m) = Some text ∧
             _explain_behavior (name (behavior m)) = text) ∧
    Forall (λ a,
              ∃ text icon,
                action_explanations !! type a = Some text ∧
                _explain_action (type a) = text ∧
                action_icons !! type a = Some icon ∧
                action_icon a = icon)
      (actions (behavior m)).
Proof.
  destruct (process_query_run user_input w s)
    as (m & s' & Hrun & Hc & _).
  destruct Hc as (_ & _ & (Hn & Hacts) & _).
  exists m, s'. split_and!; [done| |].
  - apply explained_behavior in Hn.
    unfold _explain_behavior, str_get.
    destruct (behavior_explanations !! name (behavior m)); [eauto|done].
  - eapply Forall_impl; [exact Hacts|]. intros a [Ha Hi]%explained_action.
    unfold _explain_action, action_icon, str_get.
    destruct (action_explanations !! type a); [|done].
    destruct (action_icons !! type a); [|done].
    eauto 10.
Qed.

Lemma Qgt_bool_lt a b : Qgt_bool a b = true ↔ (b < a)%Q.
Proof.
  unfold Qgt_bool. rewrite negb_true_iff. split.
  - intros H. apply Qnot_le_lt. intros Hle%Qle_bool_iff. congruence.
  - intros H. destruct (Qle_bool a b) eqn:Hle; [|done].
    apply Qle_bool_iff in Hle. by apply Qlt_not_le in H.
Qed.

Lemma Qgt_bool_weaken c a b :
  Qgt_bool c a = true → Qle_bool b a = true → Qgt_bool c b = true.
Proof.
  rewrite !Qgt_bool_lt. intros Hac Hba%Qle_bool_iff.
  by eapply Qle_lt_trans.
Qed.

(** X10. The colour and the label the display gives a confidence agree:
    green goes with the labels Very High and High, yellow with Good and
    Medium, red with Low and Very Low, and no other pair occurs. *)
Theorem confidence_colour_matches_label m :
  (conf_color m, _explain_confidence (confidence m))
  ∈ [ ("green", "(Very High - Extremely certain)");
      ("green", "(High - Very confident)");
      ("yellow", "(Good - Reasonably confident)");
      ("yellow", "(Medium - Somewhat uncertain)");
      ("red", "(Low - Limited confidence)");
      ("red", "(Very Low - High uncertainty)") ].
Proof.
  unfold conf_color, _explain_confidence.
  destruct (Qgt_bool (confidence m) 0.9) eqn:H9.
  { rewrite (Qgt_bool_weaken _ 0.9 0.8 H9 eq_refl). solve_elem. }
  destruct (Qgt_bool (confidence m) 0.8) eqn:H8; [solve_elem|].
  destruct (Qgt_bool (confidence m) 0.7) eqn:H7.
  { rewrite (Qgt_bool_weaken _ 0.7 0.6 H7 eq_refl). solve_elem. }
  destruct (Qgt_bool (confidence m) 0.6) eqn:H6; [solve_elem|].
  destruct (Qgt_bool (confidence m) 0.5); solve_elem.
Qed.

Lemma fallback_message_shown user_input error_msg m :
  fallback_message user_input error_msg = Ok m →
  confidence m = 0.6%Q ∧ intent_explanations !! intent m ≠ None.
Proof.
  intros Hm.
  destruct (fallback_message_Ok user_input error_msg)
    as (m' & Hm' & Hcl & Hco & _).
  rewrite Hm in Hm'. injection Hm' as <-. split; [done|].
  unfold classify in Hcl.
  repeat case_match; injection Hcl as -> _ _ _; by vm_compute.
Qed.

(** X11. A record built by heuristic synthesis is displayed with its
    confidence in red and labelled Low, 0.6 not being above 0.6, and
    with an explanation of its intent from the table; the record of the
    connectivity fallback is displayed with its confidence in green and
    labelled Very High, and its intent [connection_error], which the
    table lacks, gets the default explanation. *)
Theorem fallback_records_displayed user_input w s :
  ∃ m s',
    process_query user_input w s = (Ok m, s') ∧
    match tier_of user_input w with
    | Synthesized =>
        conf_color m = "red" ∧
        _explain_confidence (confidence m) = "(Low - Limited confidence)" ∧
        intent_explanations !! intent m ≠ None
    | ConnectionFallback =>
        conf_color m = "green" ∧
        _explain_confidence (confidence m)
          = "(Very High - Extremely certain)" ∧
        _explain_intent_detection (intent m) ""
          = "🎯 Intent Detection: [italic]General assistance request detected[/italic]"
    | _ => True
    end.
Proof.
  destruct (process_query_run user_input w s)
    as (m & s' & Hrun & _ & Hprod & _).
  exists m, s'. split; [done|].
  unfold produced in Hprod.
  destruct (tier_of user_input w); [done|done| |].
  - destruct Hprod as (error_msg & [Hco Hint]%fallback_message_shown).
    unfold conf_color. by rewrite Hco.
  - destruct (connection_fallback_Ok user_input)
      as (m' & Hm' & Hint & _ & Hco & _).
    rewrite Hprod in Hm'. injection Hm' as <-.
    unfold conf_color. by rewrite Hco, Hint.
Qed.

(** ** Clamping *)

Lemma Qle_bool_total a b : Qle_bool a b = false → Qle_bool b a = true.
Proof.
  intros H. apply Qle_bool_iff. apply Qlt_le_weak, Qnot_le_lt.
  intros Hle%Qle_bool_iff. congruence.
Qed.

Lemma Qle_bool_trans a b c :
  Qle_bool a b = true → Qle_bool b c = true → Qle_bool a c = true.
Proof.
  rewrite !Qle_bool_iff. apply Qle_trans.
Qed.

Lemma clamp_number x p lo hi :
  as_number x = Some (Finite p) →
  clamp x lo hi
  = Ok (if Qle_bool lo p
        then if Qle_bool p hi then x else JFloat hi
        else if Qle_bool lo hi then JFloat lo else JFloat hi).
Proof.
  intros Hx. unfold clamp, py_max, py_min, py_lt. rewrite Hx. simpl.
  destruct (Qle_bool lo p); simpl.
  - rewrite Hx. simpl. by destruct (Qle_bool p hi).
  - by destruct (Qle_bool lo hi).
Qed.

Lemma clamp_idempotent x lo hi y :
  Qle_bool lo hi = true → clamp x lo hi = Ok y → clamp y lo hi = Ok y.
Proof.
  intros Hlohi.
  destruct (as_number x) as [[p| | |]|] eqn:Hx.
  - rewrite (clamp_number x p) by done.
    destruct (Qle_bool lo p) eqn:Hlo.
    + destruct (Qle_bool p hi) eqn:Hhi; intros [= <-].
      * rewrite (clamp_number x p) by done. by rewrite Hlo, Hhi.
      * rewrite (clamp_number (JFloat hi) hi) by done.
        by rewrite Hlohi, Qle_bool_refl.
    + rewrite Hlohi. intros [= <-].
      rewrite (clamp_number (JFloat lo) lo) by done.
      by rewrite Hlohi, Qle_bool_refl.
  - destruct x as [|[]|[]| | |]; try done. intros H.
    unfold clamp, py_max, py_min, py_lt in H. simpl in H.
    injection H as <-.
    rewrite (clamp_number (JFloat hi) hi) by done.
    by rewrite Hlohi, Qle_bool_refl.
  - destruct x as [|[]|[]| | |]; try done. intros H.
    unfold clamp, py_max, py_min, py_lt in H. simpl in H.
    rewrite Hlohi in H. simpl in H. injection H as <-.
    rewrite (clamp_number (JFloat lo) lo) by done.
    by rewrite Hlohi, Qle_bool_refl.
  - destruct x as [|[]|[]| | |]; try done. intros H.
    unfold clamp, py_max, py_min, py_lt in H. simpl in H.
    by injection H as <-.
  - destruct x as [| |[]| | |]; try done.
Qed.

(** X12. Clamping, [min(max(x, lo), hi)] with [lo <= hi], is idempotent:
    what it returns it returns unchanged when applied again. A number
    already in the range, the bounds among them, is returned unchanged,
    and every number other than NaN, the infinities among them, is
    brought into the range. *)
Theorem clamp_idempotent_and_in_range lo hi :
  (lo <= hi)%Q →
  (∀ x y, clamp x lo hi = Ok y → clamp y lo hi = Ok y) ∧
  (∀ q, in_range lo hi q → clamp (JFloat q) lo hi = Ok (JFloat q)) ∧
  (∀ x, is_clampable x = true →
        ∃ q, clamp x lo hi = Ok (JFloat q) ∧ in_range lo hi q).
Proof.
  intros Hlohi%Qle_bool_iff. split_and!.
  - intros x y. by apply clamp_idempotent.
  - intros q [Hlo%Qle_bool_iff Hhi%Qle_bool_iff].
    rewrite (clamp_number (JFloat q) q) by done. by rewrite Hlo, Hhi.
  - intros x Hx.
    destruct (clamp_clampable x lo hi Hlohi Hx) as (q & Hq & Hr).
    exists q. split; [done|].
    apply andb_prop in Hr as [? ?]. split; by apply Qle_bool_iff.
Qed.

Lemma clamp_idempotent_and_in_range_witness :
  (0 <= 1)%Q ∧
  (∀ x y, clamp x 0 1 = Ok y → clamp y 0 1 = Ok y) ∧
  (∀ q, in_range 0 1 q → clamp (JFloat q) 0 1 = Ok (JFloat q)) ∧
  (∀ x, is_clampable x = true →
        ∃ q, clamp x 0 1 = Ok (JFloat q) ∧ in_range 0 1 q).
Proof.
  split; [done|].
  apply (clamp_idempotent_and_in_range 0 1). done.
Defined.

(** ** How partial reconstruction fills the fields *)







(** ** What partial reconstruction does not read *)

Lemma dict_get_insert_ne o k k' v d :
  k ≠ k' → dict_get (<[k:=v]> o) k' d = dict_get o k' d.
Proof. intros Hne. unfold dict_get. by rewrite lookup_insert_ne. Qed.

Lemma dict_get_insert_eq o k v d : dict_get (<[k:=v]> o) k d = v.
Proof. unfold dict_get. by rewrite lookup_insert_eq. Qed.

Lemma dict_get_Some o k v d : o !! k = Some v → dict_get o k d = v.
Proof. unfold dict_get. by intros ->. Qed.

Ltac solve_ne H :=
  let E := fresh in
  intros E; apply H; rewrite E; solve_elem.

(** X14. [_create_partial_meld] reads seven members of the reply, four
    of its emotional state and two of its behaviour, and nothing else:
    setting any other member, the metadata of the reply, the secondary
    emotion, the stability or the actions for instance, changes
    neither the record nor the exception. *)
Theorem partial_meld_ignores_other_members o user_input k v :
  (k ∉ read_members →
   partial_message (JObj (<[k:=v]> o)) user_input
   = partial_message (JObj o) user_input) ∧
  (∀ es, k ∉ read_emotion_members →
         o !! "emotional_state" = Some (JObj es) →
         partial_message
           (JObj (<["emotional_state" := JObj (<[k:=v]> es)]> o)) user_input
         = partial_message (JObj o) user_input) ∧
  (∀ be, k ∉ read_behavior_members →
         o !! "behavior" = Some (JObj be) →
         partial_message
           (JObj (<["behavior" := JObj (<[k:=v]> be)]> o)) user_input
         = partial_message (JObj o) user_input).
Proof.
  split_and!.
  - intros Hk. unfold partial_message, py_get2, py_get, read_members in *.
    rewrite !(dict_get_insert_ne o k) by solve_ne Hk. reflexivity.
  - intros es Hk Hes.
    unfold partial_message, py_get2, py_get, read_emotion_members in *.
    rewrite !dict_get_insert_eq.
    rewrite !(dict_get_insert_ne o "emotional_state") by done.
    rewrite !(dict_get_Some o "emotional_state" _ _ Hes).
    cbn [rbind].
    rewrite !(dict_get_insert_ne es k) by solve_ne Hk. reflexivity.
  - intros be Hk Hbe.
    unfold partial_message, py_get2, py_get, read_behavior_members in *.
    rewrite !dict_get_insert_eq.
    rewrite !(dict_get_insert_ne o "behavior") by done.
    rewrite !(dict_get_Some o "behavior" _ _ Hbe).
    cbn [rbind].
    rewrite !(dict_get_insert_ne be k) by solve_ne Hk. reflexivity.
Qed.

(** ** The diagnostic of a synthesised record *)

Lemma fallback_metadata_error error_msg :
  fallback_metadata error_msg !! "error" = Some (JStr error_msg).
Proof.
  unfold fallback_metadata.
  by rewrite lookup_insert_ne, lookup_insert_eq.
Qed.

Lemma except_clause_run user_input w e s :
  ∃ m,
    except_clause user_input w e s
    = (Ok m, recorded user_input m w false (map_stats incr_fallbacks_used s)) ∧
    fallback_message user_input (str_exn e) = Ok m.
Proof.
  unfold except_clause.
  destruct (fallback_message_Ok user_input (str_exn e)) as (m & Hm & _).
  rewrite Hm. eauto.
Qed.

(** X15. When the probe succeeds and the request raises, the record
    [process_query] returns carries the text of the exception under
    [error] in its metadata. When the reply fails validation and is
    either no JSON or a value partial reconstruction raises on, the
    record carries the text of the validation error after the words
    JSON parsing failed, whichever exception ended the reconstruction. *)
Theorem synthesised_record_carries_diagnostic user_input w s :
  reachable w = true →
  (∀ e, reply w = Raise e →
        ∃ m s' md,
          process_query user_input w s = (Ok m, s') ∧
          metadata m = Some md ∧
          md !! "error" = Some (JStr (str_exn e))) ∧
  (∀ t e, reply w = Ok t →
          model_validate_json t = Raise e →
          (∀ data, t = WellFormed data →
                   is_ok (partial_message data user_input) = false) →
          ∃ m s' md,
            process_query user_input w s = (Ok m, s') ∧
            metadata m = Some md ∧
            md !! "error"
              = Some (JStr ("JSON parsing failed: " ++ str_exn e))).
Proof.
  intros Hreach. split.
  - intros e He. rewrite process_query_unfold. cbv zeta.
    rewrite Hreach, He.
    destruct (except_clause_run user_input w e
                (map_stats incr_total_requests s)) as (m & -> & Hm).
    destruct (fallback_message_Ok user_input (str_exn e))
      as (m0 & Hm0 & _ & _ & _ & Hmd & _).
    rewrite Hm in Hm0. injection Hm0 as <-.
    do 3 eexists. split_and!; [reflexivity|exact Hmd|].
    apply fallback_metadata_error.
  - intros t e Ht Hv Hpart. rewrite process_query_unfold. cbv zeta.
    rewrite Hreach, Ht, parse_meld_response_run, Hv.
    destruct (fallback_message_Ok user_input
                ("JSON parsing failed: " ++ str_exn e))
      as (m & Hm & _ & _ & _ & Hmd & _).
    destruct t as [|data].
    + rewrite Hm. do 3 eexists. split_and!; [reflexivity|exact Hmd|].
      apply fallback_metadata_error.
    + specialize (Hpart data eq_refl).
      destruct (partial_message data user_input); [discriminate|].
      rewrite Hm. do 3 eexists. split_and!; [reflexivity|exact Hmd|].
      apply fallback_metadata_error.
Qed.

Lemma synthesised_record_carries_diagnostic_witness :
  reachable timing_out = true ∧
  ∃ m s' md,
    process_query "hello" timing_out __init__ = (Ok m, s') ∧
    metadata m = Some md ∧
    md !! "error" = Some (JStr "Read timed out.").
Proof.
  split; [reflexivity|].
  exact (proj1 (synthesised_record_carries_diagnostic "hello" timing_out
                  __init__ eq_refl)
           (TransportError "Read timed out.") eq_refl).
Defined.

(** ** A query the service cannot be reached for *)

(** X16. When the probe fails, [process_query] returns the connection
    record, whose response quotes the query, whatever the reply would
    have been, and changes nothing of the processor but
    [total_requests]: the history, the other counters, the average and
    what is stored for the display stay as they were. *)
Theorem offline_query_only_counts_the_request user_input w s :
  reachable w = false →
  ∃ m s',
    process_query user_input w s = (Ok m, s') ∧
    intent m = "connection_error" ∧
    persona m = "Sage" ∧
    name (behavior m) = "acknowledge" ∧
    confidence m = 0.95%Q ∧
    response m = connection_notice user_input ∧
    metadata m = Some connection_metadata ∧
    interaction_history s' = interaction_history s ∧
    performance_stats s' = incr_total_requests (performance_stats s) ∧
    last_user_query s' = last_user_query s ∧
    last_processing_time s' = last_processing_time s.
Proof.
  intros Hreach. rewrite process_query_unfold. cbv zeta. rewrite Hreach.
  do 2 eexists. split; [vm_compute; reflexivity|].
  by split_and!.
Qed.

Lemma offline_query_only_counts_the_request_witness :
  reachable offline = false ∧
  ∃ m s',
    process_query "hello" offline __init__ = (Ok m, s') ∧
    response m = connection_notice "hello" ∧
    interaction_history s' = [] ∧
    total_requests (performance_stats s') = 1%nat ∧
    last_user_query s' = "".
Proof.
  split; [reflexivity|].
  destruct (offline_query_only_counts_the_request "hello" offline __init__
              eq_refl)
    as (m & s' & Hrun & _ & _ & _ & _ & Hre & _ & Hh & Hp & Hq & _).
  exists m, s'. rewrite Hp. by split_and!.
Defined.

(** ** What is stored for the display *)

Lemma process_query_stores user_input w s :
  let s' := snd (process_query user_input w s) in
  if reachable w
  then ∃ m success,
         interaction_history s'
           = (interaction_history s
                ++ [entry_of user_input m w success])%list ∧
         last_user_query s' = user_input ∧
         last_processing_time s' = elapsed w
  else interaction_history s' = interaction_history s ∧
       last_user_query s' = last_user_query s ∧
       last_processing_time s' = last_processing_time s.
Proof.
  cbv zeta. rewrite process_query_unfold. cbv zeta.
  destruct (reachable w); [|by split_and!].
  destruct (reply w) as [t|e].
  - rewrite parse_meld_response_run.
    destruct (model_validate_json t) as [m|e].
    { by exists m, true. }
    destruct (fallback_message_Ok user_input
                ("JSON parsing failed: " ++ str_exn e)) as (m' & Hm' & _).
    destruct t as [|data].
    { rewrite Hm'. by exists m', true. }
    destruct (partial_message data user_input) as [m|e'].
    { by exists m, true. }
    rewrite Hm'. by exists m', true.
  - destruct (except_clause_run user_input w e
                (map_stats incr_total_requests s)) as (m & -> & _).
    by exists m, false.
Qed.

Lemma display_store_in_step_run queries s :
  display_store_in_step s → display_store_in_step (run queries s).
Proof.
  revert s. induction queries as [|[q w] queries IH]; intros s Hs; [done|].
  simpl run. apply IH.
  pose proof (process_query_stores q w s) as H. cbv zeta in H.
  unfold display_store_in_step in *.
  destruct (reachable w).
  - destruct H as (m & success & -> & -> & ->).
    by rewrite last_snoc.
  - destruct H as (-> & -> & ->). done.
Qed.

(** X17. After any session of a fresh processor, the query and the
    processing time stored for the display are those of the last entry
    of the history; while the history is empty they are the empty query
    and the zero [__init__] stored. A query answered offline changes
    neither the history nor what is stored. *)
Theorem display_store_follows_history queries :
  display_store_in_step (run queries __init__).
Proof. apply display_store_in_step_run. by split. Qed.

(** ** The profiles of heuristic synthesis *)





(** ** Partial reconstruction of a reply the validator accepts *)







